(** * ski_snow_weather_app: persistence, forecast normalisation, rendering

    A shallow embedding of [ski_snow_weather_app_1_1.py].  The three parts of
    the program that carry logic are embedded as executable definitions:

    - the persistent store ([load_locations], [save_locations]);
    - the forecast fetcher ([get_daily_forecast]);
    - the application shell ([WeatherApp.show_forecast],
      [WeatherApp.persist_state] and the two form callbacks).

    Python values that reach these functions come out of [json.load], out of
    Tk variables or out of the forecast client, so the value universe is the
    JSON one.  Python floats are IEEE binary64 and are embedded as Rocq's
    primitive floats. *)

From Stdlib Require Import ZArith List String Ascii Bool Lia.
From Stdlib Require Import DecimalString.
From Stdlib Require Import PrimFloat FloatOps SpecFloat FloatAxioms.
Import ListNotations.

Set Warnings "-inexact-float,-register-all".

Local Open Scope string_scope.
Local Open Scope Z_scope.

(** ** Exceptions and fallible computations *)

Inductive exn_class :=
| JSONDecodeError
| KeyError
| IndexError
| TypeError
| AttributeError
| ValueError
| OverflowError
| ZeroDivisionError
| OutOfBoundsDatetime
| TclError
| OtherError.

(** An exception is its class and the text [str(e)] gives back. *)
Record exn := Exn { exn_cls : exn_class; exn_msg : string }.

Definition str_exn (e : exn) : string := exn_msg e.

Inductive result (A : Type) :=
| Ok (a : A)
| Err (e : exn).
Arguments Ok {A} a.
Arguments Err {A} e.

Definition bind {A B} (r : result A) (k : A -> result B) : result B :=
  match r with
  | Ok a => k a
  | Err e => Err e
  end.

Definition raise {A} (c : exn_class) (m : string) : result A := Err (Exn c m).

Declare Scope py_scope.
Delimit Scope py_scope with py.
Notation "x <- c ;; k" := (bind c (fun x => k))
  (at level 61, c at next level, right associativity) : py_scope.
Notation "' p <- c ;; k" := (bind c (fun x => let 'p := x in k))
  (at level 61, p pattern, c at next level, right associativity) : py_scope.
Local Open Scope py_scope.

Definition is_ok {A} (r : result A) : bool :=
  match r with Ok _ => true | Err _ => false end.

(** ** Python values *)

Inductive json :=
| JNull
| JBool (b : bool)
| JInt (z : Z)
| JFloat (f : float)
| JStr (s : string)
| JArr (l : list json)
| JObj (d : list (string * json)).

(** A [dict] keeps its keys in insertion order, which is also the order
    [json.dump] writes them in; an association list keeps that order.  Keys
    of a Python dict are unique: [wf_dict]. *)
Definition dict (V : Type) := list (string * V).
Bind Scope list_scope with dict.

Definition keys {V} (d : dict V) : list string := map fst d.
Definition values {V} (d : dict V) : list V := map snd d.

Definition wf_dict {V} (d : dict V) : Prop := NoDup (keys d).

Fixpoint dict_get {V} (k : string) (d : dict V) : option V :=
  match d with
  | [] => None
  | (k', v) :: d' => if String.eqb k k' then Some v else dict_get k d'
  end.

(** [k in d] *)
Definition dict_mem {V} (k : string) (d : dict V) : bool :=
  match dict_get k d with Some _ => true | None => false end.

(** [d[k] = v]: an existing key keeps its position, a new key goes last. *)
Fixpoint dict_set {V} (k : string) (v : V) (d : dict V) : dict V :=
  match d with
  | [] => [(k, v)]
  | (k', v') :: d' =>
      if String.eqb k k' then (k', v) :: d' else (k', v') :: dict_set k v d'
  end.

(** [d.setdefault(k, v)], for its effect on [d]. *)
Definition dict_setdefault {V} (k : string) (v : V) (d : dict V) : dict V :=
  if dict_mem k d then d else dict_set k v d.

(** [d[k]] *)
Definition dict_getitem {V} (k : string) (d : dict V) : result V :=
  match dict_get k d with
  | Some v => Ok v
  | None => raise KeyError ("'" ++ k ++ "'")
  end.

(** ** Numeric conversions of the Python runtime *)

(** [float(n)] for an [int]: nearest binary64, ties to even; an [int] beyond
    the range raises. *)
Definition float_of_Z (z : Z) : result float :=
  match binary_normalize prec emax z 0 false with
  | S754_infinity _ => raise OverflowError "int too large to convert to float"
  | sf => Ok (SF2Prim sf)
  end.

(** [int(x)] for a [float]: truncation towards zero. *)
Definition int_of_float (x : float) : result Z :=
  match Prim2SF x with
  | S754_nan => raise ValueError "cannot convert float NaN to integer"
  | S754_infinity _ =>
      raise OverflowError "cannot convert float infinity to integer"
  | S754_zero _ => Ok 0
  | S754_finite s m e =>
      let a := if 0 <=? e then Zpos m * 2 ^ e else Zpos m / 2 ^ (- e) in
      Ok (if s then - a else a)
  end.

(** [str(n)] for an [int]. *)
Definition str_Z (z : Z) : string := NilZero.string_of_int (Z.to_int z).

Definition round_half_even (num den : Z) : Z :=
  let q := num / den in
  let r := num mod den in
  match 2 * r ?= den with
  | Lt => q
  | Gt => q + 1
  | Eq => if Z.even q then q else q + 1
  end.

Definition sign_str (s : bool) : string := if s then "-" else "".

(** The format spec [:.1f]: the exact binary value rounded to one decimal,
    ties to even. *)
Definition format_1f (x : float) : string :=
  match Prim2SF x with
  | S754_nan => "nan"
  | S754_infinity s => sign_str s ++ "inf"
  | S754_zero s => sign_str s ++ "0.0"
  | S754_finite s m e =>
      let tenths :=
        if 0 <=? e then 10 * Zpos m * 2 ^ e
        else round_half_even (10 * Zpos m) (2 ^ (- e)) in
      sign_str s ++ str_Z (tenths / 10) ++ "." ++ str_Z (tenths mod 10)
  end.

(** Python's [a > b] on floats. *)
Definition float_gt (a b : float) : bool := PrimFloat.ltb b a.

(** ** Calendar dates *)

(** A calendar date is its day number, day 0 being 1970-01-01. *)
Definition date := Z.

Definition pad (width : nat) (s : string) : string :=
  String.concat "" (repeat "0" (width - String.length s)) ++ s.

(** Day number to (year, month, day) in the proleptic Gregorian calendar. *)
Definition civil_of_days (n : date) : Z * Z * Z :=
  let z := n + 719468 in
  let era := z / 146097 in
  let doe := z - era * 146097 in
  let yoe := (doe - doe / 1460 + doe / 36524 - doe / 146096) / 365 in
  let doy := doe - (365 * yoe + yoe / 4 - yoe / 100) in
  let mp := (5 * doy + 2) / 153 in
  let d := doy - (153 * mp + 2) / 5 + 1 in
  let m := if mp <? 10 then mp + 3 else mp - 9 in
  let y := yoe + era * 400 + (if m <=? 2 then 1 else 0) in
  (y, m, d).

(** [str(d)] for a [datetime.date]. *)
Definition str_date (n : date) : string :=
  let '(y, m, d) := civil_of_days n in
  pad 4 (str_Z y) ++ "-" ++ pad 2 (str_Z m) ++ "-" ++ pad 2 (str_Z d).

(** ** What the program takes from its libraries

    These functions belong to the Python runtime, to Tcl/Tk and to the
    forecast client; the program only calls them.  *)

(** The reply of the forecast service, as the client's accessors give it:
    [response.UtcOffsetSeconds()], [response.Daily()], and on the daily
    block [Time()], [TimeEnd()], [Interval()] and [Variables(i)] with its
    values.  Timestamps are seconds. *)
Record daily_block := {
  Time : Z;
  TimeEnd : Z;
  Interval : Z;
  Variables : list (list float)
}.

Record response := {
  UtcOffsetSeconds : Z;
  Daily : option daily_block
}.

(** The content of a Tk variable, as Tcl holds it. *)
Definition tcl := string.

Class Externals := {
  (** [float(s)] for a [str] *)
  float_of_str : string -> option float;
  (** [s.strip()] *)
  strip : string -> string;
  (** [BooleanVar.get()] on the variable's content *)
  getboolean : tcl -> result bool;
  (** [DoubleVar.get()] on the variable's content *)
  getdouble : tcl -> result float;
  (** [openmeteo.weather_api(url, params)] for the fixed url and the
      parameters of [get_daily_forecast] at the given latitude and
      longitude *)
  weather_api : json -> json -> result (list response)
}.

(** ** Locations persistence *)

(** The backing file [locations.json].  Its text is kept up to what
    [json.load] makes of it: a text that parses is the value it parses to,
    and [json.dump] of a value writes a text that parses back to it. *)
Inductive file_content :=
| NotJson (text : string)
| JsonText (j : json).

(** [None] when the file does not exist. *)
Definition fs := option file_content.

Definition LOCATIONS_FILE : string := "locations.json".

Definition coords (lat lon : float) : json :=
  JObj [("lat", JFloat lat); ("lon", JFloat lon)].

Definition DEFAULT_LOCATIONS : dict json :=
  [ ("Aspen Mountain", coords 39.156895 (-106.820015));
    ("Deer Valley", coords 40.619605 (-111.485073));
    ("Taos Ski Valley", coords 36.576941 (-105.449794)) ].

Definition DEFAULT_SETTINGS : dict json :=
  [ ("highlight_snow_enabled", JBool true);
    ("highlight_snow_over_cm", JFloat 1.0);
    ("highlight_rain_enabled", JBool true);
    ("highlight_rain_over_mm", JFloat 1.0) ].

Section Store.
Context {E : Externals}.

(** [float(v)] *)
Definition py_float (v : json) : result float :=
  match v with
  | JFloat f => Ok f
  | JInt z => float_of_Z z
  | JBool b => Ok (if b then 1%float else 0%float)
  | JStr s =>
      match float_of_str s with
      | Some f => Ok f
      | None => raise ValueError "could not convert string to float"
      end
  | JNull | JArr _ | JObj _ =>
      raise TypeError "float() argument must be a string or a real number"
  end.

(** One turn of the loop [for k, v in list(locations.items())]:
    [if isinstance(v, (list, tuple)) and len(v) == 2:
       locations[k] = {"lat": float(v[0]), "lon": float(v[1])}]. *)
Definition convert_entry (locations : dict json) (kv : string * json)
  : result (dict json) :=
  match snd kv with
  | JArr [a; b] =>
      lat <- py_float a ;;
      lon <- py_float b ;;
      Ok (dict_set (fst kv) (coords lat lon) locations)
  | _ => Ok locations
  end.

(** The loop over the snapshot [list(locations.items())], updating
    [locations] as it goes. *)
Fixpoint convert_loop (items : list (string * json)) (locations : dict json)
  : result (dict json) :=
  match items with
  | [] => Ok locations
  | kv :: rest =>
      locations' <- convert_entry locations kv ;;
      convert_loop rest locations'
  end.

Definition convert_legacy (locations : dict json) : result (dict json) :=
  convert_loop locations locations.

(** [for k, v in DEFAULT_SETTINGS.items(): settings.setdefault(k, v)] *)
Definition fill_settings (settings : dict json) : dict json :=
  fold_left (fun s kv => dict_setdefault (fst kv) (snd kv) s)
            DEFAULT_SETTINGS settings.

(** [x.items()] *)
Definition items_of (v : json) : result (dict json) :=
  match v with
  | JObj d => Ok d
  | _ => raise AttributeError "object has no attribute 'items'"
  end.

Definition is_str (k : string) (v : json) : bool :=
  match v with JStr s => String.eqb s k | _ => false end.

(** [k in x] for a string [k]: a key of a dict, an element of a list, a
    substring of a string; other values are not containers. *)
Definition py_contains (k : string) (x : json) : result bool :=
  match x with
  | JObj d => Ok (dict_mem k d)
  | JArr l => Ok (existsb (is_str k) l)
  | JStr s => Ok (match index 0 k s with Some _ => true | None => false end)
  | _ => raise TypeError "argument is not iterable"
  end.

(** [x[k]] for a string [k]; it succeeds on a dict only, which is given
    back with the value. *)
Definition py_getitem (k : string) (x : json) : result (dict json * json) :=
  match x with
  | JObj d => v <- dict_getitem k d ;; Ok (d, v)
  | JArr _ => raise TypeError "list indices must be integers or slices, not str"
  | JStr _ => raise TypeError "string indices must be integers, not 'str'"
  | _ => raise TypeError "object is not subscriptable"
  end.

(** [if "settings" not in data or not isinstance(data["settings"], dict):
      data["settings"] = {}] *)
Definition ensure_settings (data : dict json) : dict json :=
  match dict_get "settings" data with
  | Some (JObj _) => data
  | _ => dict_set "settings" (JObj []) data
  end.

(** The dict [data["settings"]] after [ensure_settings]. *)
Definition settings_of (data : dict json) : dict json :=
  match dict_get "settings" data with
  | Some (JObj s) => s
  | _ => []
  end.

(** The part of [load_locations] that runs when ["locations" in data]:
    the locations are converted inside [data], then the settings keys are
    ensured.  Nothing is written. *)
Definition normalise_current (data : json) : result json :=
  '(d, locs) <- py_getitem "locations" data ;;
  items <- items_of locs ;;
  locs' <- convert_legacy items ;;
  let d1 := dict_set "locations" (JObj locs') d in
  let d2 := ensure_settings d1 in
  Ok (JObj (dict_set "settings" (JObj (fill_settings (settings_of d2))) d2)).

(** The part of [load_locations] that runs when ["locations" not in data]:
    [data] itself is taken for the locations dict. *)
Definition migrate_top_level (data : json) : result json :=
  items <- items_of data ;;
  locations <- convert_legacy items ;;
  Ok (JObj [("locations", JObj locations);
            ("settings", JObj DEFAULT_SETTINGS)]).

Definition default_document : json :=
  JObj [("locations", JObj DEFAULT_LOCATIONS);
        ("settings", JObj DEFAULT_SETTINGS)].

(** [json.load(f)] on the file's content. *)
Definition json_load (c : file_content) : result json :=
  match c with
  | JsonText j => Ok j
  | NotJson _ => raise JSONDecodeError "Expecting value"
  end.

(** [load_locations()]: the value returned or the exception raised, and the
    backing file afterwards. *)
Definition load_locations (f : fs) : result json * fs :=
  match f with
  | None => (Ok default_document, Some (JsonText default_document))
  | Some c =>
      match json_load c with
      | Err e => (Err e, f)
      | Ok data =>
          match py_contains "locations" data with
          | Err e => (Err e, f)
          | Ok false =>
              match migrate_top_level data with
              | Ok data' => (Ok data', Some (JsonText data'))
              | Err e => (Err e, f)
              end
          | Ok true => (normalise_current data, f)
          end
      end
  end.

(** [save_locations(locations)] *)
Definition save_locations (document : json) (f : fs) : fs :=
  Some (JsonText document).

End Store.

(** ** Weather logic *)

(** One row of the data frame [get_daily_forecast] returns.  [Date] is the
    naive timestamp of the row, in seconds; the other columns keep the
    names the program gives them. *)
Record row := {
  Date : Z;
  Snowfall_mm : float;
  Rain_mm : float;
  T_max : float;
  T_min : float;
  Sunshine_duration_s : float;
  Weather_code : float
}.

(** [ts.date()]: the calendar day a naive timestamp falls on. *)
Definition date_of (ts : Z) : date := ts / 86400.

(** [pd.to_datetime(t, unit="s", utc=True)]: nanoseconds since the epoch
    kept in 64 bits bound the seconds. *)
Definition to_datetime (t : Z) : result Z :=
  if (-9223372036 <=? t) && (t <=? 9223372036) then Ok t
  else raise OutOfBoundsDatetime "cannot convert input with unit 's'".

(** [start + k * freq] for [k = 0 .. n-1]. *)
Fixpoint steps (n : nat) (start freq : Z) : list Z :=
  match n with
  | O => []
  | S n' => start :: steps n' (start + freq) freq
  end.

(** [pd.date_range(start=start, end=end, freq=pd.Timedelta(seconds=freq),
    inclusive="left")]: the timestamps [start + k * freq] that do not pass
    [end], without [end] itself. *)
Definition date_range (start end_ freq : Z) : result (list Z) :=
  if freq =? 0 then raise ZeroDivisionError "integer division or modulo by zero"
  else
    let n := (end_ - start) / freq in
    if n <? 0 then Ok []
    else Ok (filter (fun t => negb (t =? end_))
                    (steps (S (Z.to_nat n)) start freq)).

(** The rows of [pd.DataFrame({...})] over seven columns of one length. *)
Fixpoint zip_rows (d : list Z) (v0 v1 v2 v3 v4 v5 : list float) : list row :=
  match d, v0, v1, v2, v3, v4, v5 with
  | t :: d', a :: v0', b :: v1', c :: v2', e :: v3', f :: v4', g :: v5' =>
      {| Date := t; Snowfall_mm := a; Rain_mm := b; T_max := c; T_min := e;
         Sunshine_duration_s := f; Weather_code := g |}
      :: zip_rows d' v0' v1' v2' v3' v4' v5'
  | _, _, _, _, _, _, _ => []
  end.

Definition same_length (n : nat) (v : list float) : bool :=
  Nat.eqb (List.length v) n.

(** [pd.DataFrame({...})]: columns of different lengths are refused. *)
Definition DataFrame (d : list Z) (v0 v1 v2 v3 v4 v5 : list float)
  : result (list row) :=
  if forallb (same_length (List.length d)) [v0; v1; v2; v3; v4; v5]
  then Ok (zip_rows d v0 v1 v2 v3 v4 v5)
  else raise ValueError "All arrays must be of the same length".

(** [daily.Variables(i).ValuesAsNumpy()] *)
Definition variable_values (daily : daily_block) (i : nat)
  : result (list float) :=
  match nth_error (Variables daily) i with
  | Some v => Ok v
  | None =>
      raise AttributeError
            "'NoneType' object has no attribute 'ValuesAsNumpy'"
  end.

Section Weather.
Context {E : Externals}.

(** [get_daily_forecast(lat, lon)] *)
Definition get_daily_forecast (lat lon : json) : result (list row) :=
  responses <- weather_api lat lon ;;
  response <-
    match responses with
    | r :: _ => Ok r
    | [] => raise IndexError "list index out of range"
    end ;;
  daily <-
    match Daily response with
    | Some d => Ok d
    | None => raise AttributeError "'NoneType' object has no attribute 'Time'"
    end ;;
  start <- to_datetime (Time daily + UtcOffsetSeconds response) ;;
  end_ <- to_datetime (TimeEnd daily + UtcOffsetSeconds response) ;;
  dates <- date_range start end_ (Interval daily) ;;
  v0 <- variable_values daily 0 ;;
  v1 <- variable_values daily 1 ;;
  v2 <- variable_values daily 2 ;;
  v3 <- variable_values daily 3 ;;
  v4 <- variable_values daily 4 ;;
  v5 <- variable_values daily 5 ;;
  DataFrame dates v0 v1 v2 v3 v4 v5.

End Weather.

(** ** GUI *)

(** A piece of text in the output widget, with the tag it was inserted
    under, if any. *)
Record piece := { text : string; tag : option string }.

(** The state of the application that the callbacks read and write: the
    attributes of [WeatherApp] ([location_values] is the list the combobox
    offers), the content of the output widget, the error boxes shown so far,
    and the backing file. *)
Record WeatherApp := {
  locations : dict json;
  location_var : string;
  location_values : list string;
  highlight_snow_enabled : tcl;
  highlight_snow_over_cm : tcl;
  highlight_rain_enabled : tcl;
  highlight_rain_over_mm : tcl;
  output : list piece;
  error_boxes : list (string * string);
  backing_file : fs
}.

(** A callback runs on the application state and may raise. *)
Definition M (A : Type) := WeatherApp -> result A * WeatherApp.

Definition ret {A} (a : A) : M A := fun st => (Ok a, st).

Definition mbind {A B} (c : M A) (k : A -> M B) : M B :=
  fun st =>
    match c st with
    | (Ok a, st') => k a st'
    | (Err e, st') => (Err e, st')
    end.

(** A computation that does not touch the state. *)
Definition lift {A} (r : result A) : M A := fun st => (r, st).

(** Reading an attribute. *)
Definition attr {A} (f : WeatherApp -> A) : M A := fun st => (Ok (f st), st).

Notation "x <~ c ;; k" := (mbind c (fun x => k))
  (at level 61, c at next level, right associativity) : py_scope.
Notation "c ;;; k" := (mbind c (fun _ => k))
  (at level 61, right associativity) : py_scope.

Definition set_output (o : list piece) (st : WeatherApp) : WeatherApp :=
  {| locations := locations st;
     location_var := location_var st;
     location_values := location_values st;
     highlight_snow_enabled := highlight_snow_enabled st;
     highlight_snow_over_cm := highlight_snow_over_cm st;
     highlight_rain_enabled := highlight_rain_enabled st;
     highlight_rain_over_mm := highlight_rain_over_mm st;
     output := o;
     error_boxes := error_boxes st;
     backing_file := backing_file st |}.

Definition set_error_boxes (b : list (string * string)) (st : WeatherApp)
  : WeatherApp :=
  {| locations := locations st;
     location_var := location_var st;
     location_values := location_values st;
     highlight_snow_enabled := highlight_snow_enabled st;
     highlight_snow_over_cm := highlight_snow_over_cm st;
     highlight_rain_enabled := highlight_rain_enabled st;
     highlight_rain_over_mm := highlight_rain_over_mm st;
     output := output st;
     error_boxes := b;
     backing_file := backing_file st |}.

Definition set_backing_file (f : fs) (st : WeatherApp) : WeatherApp :=
  {| locations := locations st;
     location_var := location_var st;
     location_values := location_values st;
     highlight_snow_enabled := highlight_snow_enabled st;
     highlight_snow_over_cm := highlight_snow_over_cm st;
     highlight_rain_enabled := highlight_rain_enabled st;
     highlight_rain_over_mm := highlight_rain_over_mm st;
     output := output st;
     error_boxes := error_boxes st;
     backing_file := f |}.

Definition set_locations (l : dict json) (st : WeatherApp) : WeatherApp :=
  {| locations := l;
     location_var := location_var st;
     location_values := location_values st;
     highlight_snow_enabled := highlight_snow_enabled st;
     highlight_snow_over_cm := highlight_snow_over_cm st;
     highlight_rain_enabled := highlight_rain_enabled st;
     highlight_rain_over_mm := highlight_rain_over_mm st;
     output := output st;
     error_boxes := error_boxes st;
     backing_file := backing_file st |}.

Definition set_location_var (n : string) (st : WeatherApp) : WeatherApp :=
  {| locations := locations st;
     location_var := n;
     location_values := location_values st;
     highlight_snow_enabled := highlight_snow_enabled st;
     highlight_snow_over_cm := highlight_snow_over_cm st;
     highlight_rain_enabled := highlight_rain_enabled st;
     highlight_rain_over_mm := highlight_rain_over_mm st;
     output := output st;
     error_boxes := error_boxes st;
     backing_file := backing_file st |}.

(** [self.output.insert(tk.END, s)] and
    [self.output.insert(tk.END, s, t)] *)
Definition insert (s : string) (t : option string) : M unit :=
  fun st => (Ok tt, set_output (output st ++ [{| text := s; tag := t |}]) st).

(** [self.output.delete("1.0", tk.END)] *)
Definition delete_all : M unit := fun st => (Ok tt, set_output [] st).

(** [messagebox.showerror(title, message)] *)
Definition showerror (title message : string) : M unit :=
  fun st => (Ok tt, set_error_boxes (error_boxes st ++ [(title, message)]) st).

Definition nl : string := String "010" EmptyString.

Definition dashes : string := String.concat "" (repeat "-" 60).

Definition set_location_values (l : list string) (st : WeatherApp)
  : WeatherApp :=
  {| locations := locations st;
     location_var := location_var st;
     location_values := l;
     highlight_snow_enabled := highlight_snow_enabled st;
     highlight_snow_over_cm := highlight_snow_over_cm st;
     highlight_rain_enabled := highlight_rain_enabled st;
     highlight_rain_over_mm := highlight_rain_over_mm st;
     output := output st;
     error_boxes := error_boxes st;
     backing_file := backing_file st |}.

Section GUI.
Context {E : Externals}.

(** [var.get()] for a [BooleanVar] attribute. *)
Definition get_bool (var : WeatherApp -> tcl) : M bool :=
  fun st => (getboolean (var st), st).

(** [var.get()] for a [DoubleVar] attribute. *)
Definition get_double (var : WeatherApp -> tcl) : M float :=
  fun st => (getdouble (var st), st).

(** [self.highlight_rain_enabled.get() and
     rain_mm > float(self.highlight_rain_over_mm.get())]:
    the threshold is read only when the toggle is on. *)
Definition rain_high (rain_mm : float) : M bool :=
  enabled <~ get_bool highlight_rain_enabled ;;
  if enabled then
    over <~ get_double highlight_rain_over_mm ;;
    ret (float_gt rain_mm over)
  else ret false.

(** [self.highlight_snow_enabled.get() and
     snow_cm > float(self.highlight_snow_over_cm.get())] *)
Definition snow_high (snow_cm : float) : M bool :=
  enabled <~ get_bool highlight_snow_enabled ;;
  if enabled then
    over <~ get_double highlight_snow_over_cm ;;
    ret (float_gt snow_cm over)
  else ret false.

Definition rain_text (rain_mm : float) : string :=
  "Rain: " ++ format_1f rain_mm ++ " mm".

Definition snow_text (snow_cm : float) : string :=
  "Snow: " ++ format_1f snow_cm ++ " cm".

(** The body of [for _, row in df.iterrows()]. *)
Definition render_row (r : row) : M unit :=
  let date_str := str_date (date_of (Date r)) in
  let tmin := T_min r in
  let tmax := T_max r in
  let rain_mm := Rain_mm r in
  let snow_cm := Snowfall_mm r in
  let sun_h := PrimFloat.div (Sunshine_duration_s r) 3600 in
  code <~ lift (int_of_float (Weather_code r)) ;;
  insert (date_str ++ " | Min: " ++ format_1f tmin ++ "°C | Max: "
                   ++ format_1f tmax ++ "°C | ") None ;;;
  rain_hi <~ rain_high rain_mm ;;
  insert (rain_text rain_mm)
         (if rain_hi then Some "rain_highlight" else None) ;;;
  insert " | " None ;;;
  snow_hi <~ snow_high snow_cm ;;
  insert (snow_text snow_cm)
         (if snow_hi then Some "snow_highlight" else None) ;;;
  insert (" | Sun: " ++ format_1f sun_h ++ " h | Code: " ++ str_Z code ++ nl)
         None.

Fixpoint render_rows (df : list row) : M unit :=
  match df with
  | [] => ret tt
  | r :: rest => render_row r ;;; render_rows rest
  end.

(** The body of the [try] in [show_forecast]:
    [get_daily_forecast(loc["lat"], loc["lon"])]. *)
Definition fetch_for (loc : json) : result (list row) :=
  '(_, lat) <- py_getitem "lat" loc ;;
  '(_, lon) <- py_getitem "lon" loc ;;
  get_daily_forecast lat lon.

(** [WeatherApp.show_forecast] *)
Definition show_forecast : M unit :=
  location_name <~ attr location_var ;;
  locs <~ attr locations ;;
  loc <~ lift (dict_getitem location_name locs) ;;
  match fetch_for loc with
  | Err e => showerror "Error" (str_exn e)
  | Ok df =>
      delete_all ;;;
      insert ("Daily forecast for " ++ location_name ++ nl) None ;;;
      insert (dashes ++ nl) None ;;;
      render_rows df
  end.

(** The [settings] dict [persist_state] builds, entry by entry. *)
Definition current_settings : M json :=
  snow_enabled <~ get_bool highlight_snow_enabled ;;
  snow_over <~ get_double highlight_snow_over_cm ;;
  rain_enabled <~ get_bool highlight_rain_enabled ;;
  rain_over <~ get_double highlight_rain_over_mm ;;
  ret (JObj [("highlight_snow_enabled", JBool snow_enabled);
             ("highlight_snow_over_cm", JFloat snow_over);
             ("highlight_rain_enabled", JBool rain_enabled);
             ("highlight_rain_over_mm", JFloat rain_over)]).

(** [WeatherApp.persist_state] *)
Definition persist_state : M unit :=
  locs <~ attr locations ;;
  settings <~ current_settings ;;
  let state := JObj [("locations", JObj locs); ("settings", settings)] in
  fun st =>
    (Ok tt, set_backing_file (save_locations state (backing_file st)) st).

(** [float(entry.get())] *)
Definition float_of_entry (s : string) : option float := float_of_str s.

(** [save_new_location], the Save button of the add-location window, on
    the texts of its three entries. *)
Definition save_new_location (name_entry lat_entry lon_entry : string)
  : M unit :=
  let name := strip name_entry in
  match float_of_entry lat_entry, float_of_entry lon_entry with
  | Some lat, Some lon =>
      if String.eqb name "" then showerror "Error" "Location name required"
      else
        (fun st =>
           (Ok tt, set_locations (dict_set name (coords lat lon)
                                           (locations st)) st)) ;;;
        persist_state ;;;
        (fun st => (Ok tt, set_location_values (keys (locations st)) st)) ;;;
        (fun st => (Ok tt, set_location_var name st))
  | _, _ => showerror "Error" "Latitude and longitude must be numbers"
  end.

(** [apply_and_close], the OK button of the configuration window. *)
Definition apply_and_close : M unit :=
  fun st =>
    match (snow_over <~ get_double highlight_snow_over_cm ;;
           get_double highlight_rain_over_mm) st with
    | (Err _, _) => showerror "Error" "Threshold values must be numbers." st
    | (Ok _, _) => persist_state st
    end.

End GUI.

(** ** The conversion of the locations, as the specification words it *)

Section Conversion.
Context {E : Externals}.

(** A two-element array [[lat, lon]] becomes the object [{lat, lon}];
    every other value stays. *)
Definition converted (v : json) : result json :=
  match v with
  | JArr [a; b] =>
      lat <- py_float a ;;
      lon <- py_float b ;;
      Ok (coords lat lon)
  | _ => Ok v
  end.

(** Every entry converted, in order; the first failing entry decides. *)
Fixpoint convert_all (d : dict json) : result (dict json) :=
  match d with
  | [] => Ok []
  | (k, v) :: rest =>
      v' <- converted v ;;
      rest' <- convert_all rest ;;
      Ok ((k, v') :: rest')
  end.

(** The coordinates of a two-element array are ones [float()] accepts. *)
Definition coordinates_convert (v : json) : bool := is_ok (converted v).

Definition convert_value (v : json) : json :=
  match converted v with
  | Ok v' => v'
  | Err _ => v
  end.

Definition convert_values (d : dict json) : dict json :=
  map (fun kv => (fst kv, convert_value (snd kv))) d.

End Conversion.

(** A value in the legacy form, a two-element array. *)
Definition is_legacy (v : json) : bool :=
  match v with
  | JArr [_; _] => true
  | _ => false
  end.

Definition is_number (v : json) : bool :=
  match v with
  | JInt _ | JFloat _ => true
  | _ => false
  end.

(** A location in the current form: an object with numbers under [lat]
    and [lon]. *)
Definition is_location (v : json) : bool :=
  match v with
  | JObj d =>
      match dict_get "lat" d, dict_get "lon" d with
      | Some a, Some b => is_number a && is_number b
      | _, _ => false
      end
  | _ => false
  end.

Definition settings_keys : list string := keys DEFAULT_SETTINGS.

(** A document in the current shape: a [locations] mapping of [{lat, lon}]
    objects and a [settings] object with the four recognised keys. *)
Definition current_shape (doc : json) : bool :=
  match doc with
  | JObj data =>
      match dict_get "locations" data, dict_get "settings" data with
      | Some (JObj locs), Some (JObj s) =>
          forallb is_location (values locs)
          && forallb (fun k => dict_mem k s) settings_keys
      | _, _ => false
      end
  | _ => false
  end.

(** ** The rendered line, as the specification words it *)

Definition highlight (on : bool) (name : string) : option string :=
  if on then Some name else None.

(** The five pieces one forecast day is rendered as. *)
Definition row_pieces (r : row) (code : Z) (rain_hi snow_hi : bool)
  : list piece :=
  [ {| text := str_date (date_of (Date r)) ++ " | Min: "
               ++ format_1f (T_min r) ++ "°C | Max: "
               ++ format_1f (T_max r) ++ "°C | ";
       tag := None |};
    {| text := "Rain: " ++ format_1f (Rain_mm r) ++ " mm";
       tag := highlight rain_hi "rain_highlight" |};
    {| text := " | "; tag := None |};
    {| text := "Snow: " ++ format_1f (Snowfall_mm r) ++ " cm";
       tag := highlight snow_hi "snow_highlight" |};
    {| text := " | Sun: "
               ++ format_1f (PrimFloat.div (Sunshine_duration_s r) 3600)
               ++ " h | Code: " ++ str_Z code ++ nl;
       tag := None |} ].

Section Settings.
Context {E : Externals}.

(** The settings the widgets hold read as two toggles and two numbers. *)
Definition settings_read (st : WeatherApp) (snow_on : bool) (snow_over : float)
  (rain_on : bool) (rain_over : float) : Prop :=
  getboolean (highlight_snow_enabled st) = Ok snow_on
  /\ getdouble (highlight_snow_over_cm st) = Ok snow_over
  /\ getboolean (highlight_rain_enabled st) = Ok rain_on
  /\ getdouble (highlight_rain_over_mm st) = Ok rain_over.

End Settings.

(** ** Sample inputs *)

Definition sample_float_of_str (s : string) : option float :=
  if String.eqb s "40.0" then Some 40%float
  else if String.eqb s "-105.5" then Some (-105.5)%float
  else if String.eqb s "39.1" then Some 39.1%float
  else None.

Definition sample_getboolean (s : tcl) : result bool :=
  if String.eqb s "1" then Ok true
  else if String.eqb s "0" then Ok false
  else raise ValueError "invalid literal for getboolean()".

Definition sample_getdouble (s : tcl) : result float :=
  if String.eqb s "1.0" then Ok 1%float
  else if String.eqb s "2.5" then Ok 2.5%float
  else raise TclError "expected floating-point number".

(** A reply covering [n] whole days from the timestamp [t0], with the same
    values on every day. *)
Definition constant_reply (t0 : Z) (n : nat) (snow rain : float) : response :=
  {| UtcOffsetSeconds := -25200;
     Daily := Some {| Time := t0;
                      TimeEnd := t0 + Z.of_nat n * 86400;
                      Interval := 86400;
                      Variables := [repeat snow n; repeat rain n;
                                    repeat 3%float n; repeat (-4)%float n;
                                    repeat 18000%float n; repeat 71%float n] |}
  |}.

(** The service answering with a single day. *)
Definition one_day_externals : Externals :=
  {| float_of_str := sample_float_of_str;
     strip := fun s => s;
     getboolean := sample_getboolean;
     getdouble := sample_getdouble;
     weather_api := fun _ _ => Ok [constant_reply 1762239600 1 5 1] |}.

(** The service answering with the sixteen days asked for. *)
Definition sample_externals : Externals :=
  {| float_of_str := sample_float_of_str;
     strip := fun s => s;
     getboolean := sample_getboolean;
     getdouble := sample_getdouble;
     weather_api := fun _ _ => Ok [constant_reply 1762239600 16 5 1] |}.

(** The service being unreachable. *)
Definition failing_externals : Externals :=
  {| float_of_str := sample_float_of_str;
     strip := fun s => s;
     getboolean := sample_getboolean;
     getdouble := sample_getdouble;
     weather_api := fun _ _ => raise OtherError "connection refused" |}.

Definition legacy_top_level : dict json :=
  [("Aspen", JArr [JFloat 39.1; JFloat (-106.8)]);
   ("Vail", coords 39.6 (-106.4))].

Definition legacy_inside : json :=
  JObj [("locations", JObj [("Aspen", JArr [JFloat 39.1; JFloat (-106.8)])]);
        ("settings", JObj DEFAULT_SETTINGS)].

Definition legacy_inside_migrated : json :=
  JObj [("locations", JObj [("Aspen", coords 39.1 (-106.8))]);
        ("settings", JObj DEFAULT_SETTINGS)].

Definition missing_rain_threshold : dict json :=
  [("locations", JObj DEFAULT_LOCATIONS);
   ("settings", JObj [("highlight_snow_enabled", JBool false);
                      ("highlight_snow_over_cm", JFloat 7.5);
                      ("highlight_rain_enabled", JBool true)])].

Definition sample_app : WeatherApp :=
  {| locations := DEFAULT_LOCATIONS;
     location_var := "Deer Valley";
     location_values := keys DEFAULT_LOCATIONS;
     highlight_snow_enabled := "1";
     highlight_snow_over_cm := "2.5";
     highlight_rain_enabled := "1";
     highlight_rain_over_mm := "1.0";
     output := [{| text := "earlier forecast"; tag := None |}];
     error_boxes := [];
     backing_file := Some (JsonText default_document) |}.

Definition sample_row : row :=
  {| Date := 1762214400; Snowfall_mm := 5; Rain_mm := 1;
     T_max := 3; T_min := -4; Sunshine_duration_s := 18000;
     Weather_code := 71 |}.
(** ** Well-formed values and what the callbacks keep *)

Fixpoint distinct (l : list string) : bool :=
  match l with
  | [] => true
  | k :: l' => negb (existsb (String.eqb k) l') && distinct l'
  end.

(** A value as [json.load] builds it: the keys of every dict in it are
    distinct. *)
Fixpoint unique_keys (v : json) : bool :=
  match v with
  | JArr l => forallb unique_keys l
  | JObj d => distinct (keys d) && forallb (fun kv => unique_keys (snd kv)) d
  | _ => true
  end.

(** The backing file holds no dict with a repeated key. *)
Definition file_unique_keys (f : fs) : bool :=
  match f with
  | Some (JsonText j) => unique_keys j
  | _ => true
  end.

Definition is_object (v : json) : bool :=
  match v with
  | JObj _ => true
  | _ => false
  end.

(** A document with a [locations] dict and a [settings] dict that has the
    four recognised keys. *)
Definition loaded_shape (doc : json) : bool :=
  match doc with
  | JObj data =>
      match dict_get "locations" data, dict_get "settings" data with
      | Some (JObj _), Some (JObj s) =>
          forallb (fun k => dict_mem k s) settings_keys
      | _, _ => false
      end
  | _ => false
  end.

(** The locations of a document, when it has them as a dict. *)
Definition locations_of (doc : json) : dict json :=
  match doc with
  | JObj data =>
      match dict_get "locations" data with
      | Some (JObj l) => l
      | _ => []
      end
  | _ => []
  end.

(** The dict the conversion loop of [load_locations] runs over: the value
    under [locations], or the whole top-level dict when that key is
    missing. *)
Definition stored_locations (data : dict json) : dict json :=
  match dict_get "locations" data with
  | None => data
  | Some (JObj l) => l
  | Some _ => []
  end.

(** Two states that differ at most in the output and the error boxes. *)
Definition same_model (st st' : WeatherApp) : Prop :=
  locations st' = locations st
  /\ location_var st' = location_var st
  /\ location_values st' = location_values st
  /\ highlight_snow_enabled st' = highlight_snow_enabled st
  /\ highlight_snow_over_cm st' = highlight_snow_over_cm st
  /\ highlight_rain_enabled st' = highlight_rain_enabled st
  /\ highlight_rain_over_mm st' = highlight_rain_over_mm st
  /\ backing_file st' = backing_file st.

(** Two states that differ at most in the backing file. *)
Definition same_but_file (st st' : WeatherApp) : Prop :=
  locations st' = locations st
  /\ location_var st' = location_var st
  /\ location_values st' = location_values st
  /\ highlight_snow_enabled st' = highlight_snow_enabled st
  /\ highlight_snow_over_cm st' = highlight_snow_over_cm st
  /\ highlight_rain_enabled st' = highlight_rain_enabled st
  /\ highlight_rain_over_mm st' = highlight_rain_over_mm st
  /\ output st' = output st
  /\ error_boxes st' = error_boxes st.

(** The selected name is one of the locations. *)
Definition selection_valid (st : WeatherApp) : bool :=
  dict_mem (location_var st) (locations st).

(** The two pieces [show_forecast] starts the output with. *)
Definition forecast_header (location_name : string) : list piece :=
  [ {| text := "Daily forecast for " ++ location_name ++ nl; tag := None |};
    {| text := dashes ++ nl; tag := None |} ].

Definition code_is_finite (r : row) : bool :=
  is_ok (int_of_float (Weather_code r)).

Definition code_of (r : row) : Z :=
  match int_of_float (Weather_code r) with
  | Ok c => c
  | Err _ => 0
  end.

(** The line of one forecast day under given settings. *)
Definition format_day (snow_on : bool) (snow_over : float) (rain_on : bool)
  (rain_over : float) (r : row) : list piece :=
  row_pieces r (code_of r) (rain_on && float_gt (Rain_mm r) rain_over)
             (snow_on && float_gt (Snowfall_mm r) snow_over).

(** The first piece of the line of a forecast day. *)
Definition head_piece (r : row) : piece :=
  {| text := str_date (date_of (Date r)) ++ " | Min: "
             ++ format_1f (T_min r) ++ "°C | Max: "
             ++ format_1f (T_max r) ++ "°C | ";
     tag := None |}.

(** More sample inputs *)

Definition legacy_bad_coordinate : dict json :=
  [("Aspen", JArr [JFloat 39.1; JNull])].

Definition with_extra_key : dict json :=
  [("version", JInt 2);
   ("locations", JObj [("Aspen", JArr [JInt 39; JFloat (-106.8)])]);
   ("settings", JStr "none")].

Definition unreadable_app : WeatherApp :=
  {| locations := DEFAULT_LOCATIONS;
     location_var := "Deer Valley";
     location_values := keys DEFAULT_LOCATIONS;
     highlight_snow_enabled := "1";
     highlight_snow_over_cm := "2.5";
     highlight_rain_enabled := "1";
     highlight_rain_over_mm := "abc";
     output := [];
     error_boxes := [];
     backing_file := Some (JsonText default_document) |}.

Definition toggles_off_app : WeatherApp :=
  {| locations := DEFAULT_LOCATIONS;
     location_var := "Deer Valley";
     location_values := keys DEFAULT_LOCATIONS;
     highlight_snow_enabled := "0";
     highlight_snow_over_cm := "";
     highlight_rain_enabled := "0";
     highlight_rain_over_mm := "abc";
     output := [];
     error_boxes := [];
     backing_file := Some (JsonText default_document) |}.

Definition nan_code_row : row :=
  {| Date := 1762300800; Snowfall_mm := 0; Rain_mm := 0;
     T_max := 1; T_min := -1; Sunshine_duration_s := 0;
     Weather_code := PrimFloat.nan |}.

(** The service answering with two days, the second without a weather
    code. *)
Definition nan_code_externals : Externals :=
  {| float_of_str := sample_float_of_str;
     strip := fun s => s;
     getboolean := sample_getboolean;
     getdouble := sample_getdouble;
     weather_api := fun _ _ =>
       Ok [{| UtcOffsetSeconds := -25200;
              Daily := Some {| Time := 1762239600;
                               TimeEnd := 1762239600 + 2 * 86400;
                               Interval := 86400;
                               Variables :=
                                 [[5; 0]; [1; 0]; [3; 1]; [-4; -1];
                                  [18000; 0]; [71; PrimFloat.nan]]%float |}
            |}] |}.

Definition odd_location_app : WeatherApp :=
  {| locations := [("Odd", JObj [("lon", JFloat (-105.5))])];
     location_var := "Odd";
     location_values := ["Odd"];
     highlight_snow_enabled := "1";
     highlight_snow_over_cm := "2.5";
     highlight_rain_enabled := "1";
     highlight_rain_over_mm := "1.0";
     output := [{| text := "earlier forecast"; tag := None |}];
     error_boxes := [];
     backing_file := None |}.

(** * Properties *)

(** ** The runtime functions on sample values *)

Example str_Z_neg : str_Z (-42) = "-42".
Proof. reflexivity. Qed.

Example float_of_Z_5 : float_of_Z 5 = Ok 5%float.
Proof. reflexivity. Qed.

Example format_1f_ex :
  map format_1f [5%float; 0.25%float; 0.35%float; (-0.04)%float; 12.96%float]
  = ["5.0"; "0.2"; "0.3"; "-0.0"; "13.0"].
Proof. reflexivity. Qed.

Example int_of_float_ex :
  map int_of_float [71%float; (-3.7)%float; 0.5%float] = [Ok 71; Ok (-3); Ok 0].
Proof. reflexivity. Qed.

Example str_date_ex :
  map str_date [0; 20761; -1; 11016] =
  ["1970-01-01"; "2026-11-04"; "1969-12-31"; "2000-02-29"].
Proof. reflexivity. Qed.

Example py_contains_ex :
  map (py_contains "locations")
      [JObj [("locations", JNull)]; JObj [("Aspen", JNull)];
       JArr [JStr "locations"]; JStr "my locations"; JStr "Aspen"]
  = [Ok true; Ok false; Ok true; Ok true; Ok false].
Proof. reflexivity. Qed.

Example date_range_ex :
  date_range 0 259200 86400 = Ok [0; 86400; 172800]
  /\ date_range 0 200000 86400 = Ok [0; 86400; 172800]
  /\ date_range 0 (-10) 86400 = Ok []
  /\ date_range 0 (-10) (-3) = Ok [0; -3; -6; -9]
  /\ is_ok (date_range 0 10 0) = false.
Proof. repeat split. Qed.

(** ** Dictionaries *)

Section DictFacts.
Context {V : Type}.
Implicit Types (d : dict V) (k : string) (v : V).

Lemma dict_get_set_same d k v : dict_get k (dict_set k v d) = Some v.
Proof.
  induction d as [|[k' v'] d IH]; simpl.
  - now rewrite String.eqb_refl.
  - destruct (String.eqb k k') eqn:Hk; simpl; rewrite Hk; auto.
Qed.

Lemma dict_get_set_other d k k' v :
  k <> k' -> dict_get k' (dict_set k v d) = dict_get k' d.
Proof.
  intros Hne. induction d as [|[k0 v0] d IH]; simpl.
  - destruct (String.eqb_spec k' k); congruence.
  - destruct (String.eqb_spec k k0); simpl.
    + subst k0. destruct (String.eqb_spec k' k); congruence.
    + now rewrite IH.
Qed.

Lemma dict_set_same d k v : dict_get k d = Some v -> dict_set k v d = d.
Proof.
  induction d as [|[k' v'] d IH]; simpl; [discriminate|].
  destruct (String.eqb_spec k k').
  - now intros [= ->].
  - intros H. now rewrite IH.
Qed.

Lemma dict_get_not_in d k : ~ In k (keys d) -> dict_get k d = None.
Proof.
  induction d as [|[k' v'] d IH]; simpl; auto.
  intros H. destruct (String.eqb_spec k k'); [subst; tauto|].
  apply IH. tauto.
Qed.

Lemma dict_set_app_fresh d d' k v v' :
  ~ In k (keys d) ->
  dict_set k v (d ++ (k, v') :: d')%list = (d ++ (k, v) :: d')%list.
Proof.
  induction d as [|[k0 v0] d IH]; simpl; intros H.
  - now rewrite String.eqb_refl.
  - destruct (String.eqb_spec k k0); [subst; tauto|].
    rewrite IH; tauto.
Qed.

Lemma dict_get_setdefault d k k' v :
  dict_get k (dict_setdefault k' v d) =
  match dict_get k d with
  | Some x => Some x
  | None => if String.eqb k k' then Some v else None
  end.
Proof.
  unfold dict_setdefault, dict_mem.
  destruct (dict_get k' d) eqn:Hk'.
  - destruct (dict_get k d) eqn:Hk; auto.
    destruct (String.eqb_spec k k'); congruence.
  - destruct (String.eqb_spec k k').
    + subst. now rewrite dict_get_set_same, Hk'.
    + rewrite dict_get_set_other by congruence.
      now destruct (dict_get k d).
Qed.

Lemma dict_setdefault_present d k v :
  dict_mem k d = true -> dict_setdefault k v d = d.
Proof. unfold dict_setdefault. now intros ->. Qed.

End DictFacts.

(** ** The conversion loop *)

Section StoreFacts.
Context {E : Externals}.

Lemma bind_ret_id {A} (r : result A) : (x <- r ;; Ok x) = r.
Proof. now destruct r. Qed.

Lemma converted_not_legacy v : is_legacy v = false -> converted v = Ok v.
Proof.
  destruct v as [| | | | |l|]; try reflexivity.
  destruct l as [|a [|b [|c l]]]; try reflexivity. discriminate.
Qed.

(** One turn of the loop writes the converted value under the key when the
    value is in the legacy form, and nothing otherwise. *)
Lemma convert_entry_spec locations k v :
  convert_entry locations (k, v) =
  (v' <- converted v ;;
   Ok (if is_legacy v then dict_set k v' locations else locations)).
Proof.
  unfold convert_entry; simpl.
  destruct v as [| | | | |l|]; try reflexivity.
  destruct l as [|a [|b [|c l]]]; try reflexivity.
  simpl. destruct (py_float a); simpl; [|reflexivity].
  now destruct (py_float b).
Qed.

Lemma keys_app {V} (d d' : dict V) : keys (d ++ d') = (keys d ++ keys d')%list.
Proof. apply map_app. Qed.

(** The loop invariant: the entries already visited hold their converted
    value, the others are as they were loaded. *)
Lemma convert_loop_refines todo : forall done,
  wf_dict (done ++ todo) ->
  convert_loop todo (done ++ todo) =
  (rest <- convert_all todo ;; Ok (done ++ rest)%list).
Proof.
  induction todo as [|[k v] todo IH]; intros done Hwf; simpl.
  - now rewrite app_nil_r.
  - rewrite convert_entry_spec.
    destruct (converted v) as [v'|e] eqn:Hc; simpl; [|reflexivity].
    assert (Hfresh : ~ In k (keys done)).
    { unfold wf_dict in Hwf. rewrite keys_app in Hwf. simpl in Hwf.
      apply NoDup_remove_2 in Hwf. intros Hin. apply Hwf.
      apply in_or_app. now left. }
    assert (Hstep : (if is_legacy v
                     then dict_set k v' (done ++ (k, v) :: todo)%list
                     else (done ++ (k, v) :: todo)%list)
                    = ((done ++ [(k, v')]) ++ todo)%list).
    { rewrite <- app_assoc. simpl. destruct (is_legacy v) eqn:Hl.
      - now apply dict_set_app_fresh.
      - rewrite converted_not_legacy in Hc by assumption.
        now injection Hc as ->. }
    rewrite Hstep, IH.
    + destruct (convert_all todo); simpl; [|reflexivity].
      now rewrite <- app_assoc.
    + unfold wf_dict in *. rewrite !keys_app in *. simpl in *.
      now rewrite <- app_assoc.
Qed.

(** On a dict, the loop of the program computes the conversion the
    specification describes. *)
Lemma convert_legacy_refines d :
  wf_dict d -> convert_legacy d = convert_all d.
Proof.
  intros Hwf. unfold convert_legacy.
  change (convert_loop d ([] ++ d) = convert_all d).
  rewrite convert_loop_refines by assumption.
  apply bind_ret_id.
Qed.

Lemma convert_all_values d :
  forallb coordinates_convert (values d) = true ->
  convert_all d = Ok (convert_values d).
Proof.
  induction d as [|[k v] d IH]; simpl; [reflexivity|].
  intros [Hv Hd]%andb_prop. rewrite IH by assumption.
  unfold coordinates_convert in Hv. unfold convert_value. simpl.
  now destruct (converted v).
Qed.

(** The loop succeeds as soon as the coordinates it meets convert, whatever
    the dict it updates. *)
Lemma convert_loop_total items : forall locations,
  forallb coordinates_convert (values items) = true ->
  exists l, convert_loop items locations = Ok l.
Proof.
  induction items as [|[k v] items IH]; intros locations; simpl.
  - intros _. now exists locations.
  - intros [Hv Hd]%andb_prop. rewrite convert_entry_spec.
    unfold coordinates_convert in Hv.
    destruct (converted v); [|discriminate]. simpl. now apply IH.
Qed.

(** Without a legacy value the loop changes nothing. *)
Lemma convert_loop_no_legacy items : forall locations,
  forallb (fun v => negb (is_legacy v)) (values items) = true ->
  convert_loop items locations = Ok locations.
Proof.
  induction items as [|[k v] items IH]; intros locations; simpl.
  - reflexivity.
  - intros [Hv Hd]%andb_prop. rewrite convert_entry_spec.
    apply negb_true_iff in Hv.
    rewrite converted_not_legacy, Hv by assumption. simpl. now apply IH.
Qed.

Lemma is_location_not_legacy v : is_location v = true -> is_legacy v = false.
Proof. now destruct v. Qed.

(** ** The settings keys *)

Lemma dict_get_fill_settings s k :
  dict_get k (fill_settings s) =
  match dict_get k s with
  | Some v => Some v
  | None => dict_get k DEFAULT_SETTINGS
  end.
Proof.
  unfold fill_settings, DEFAULT_SETTINGS. simpl.
  rewrite !dict_get_setdefault.
  destruct (dict_get k s); [reflexivity|].
  repeat match goal with
         | |- context [String.eqb k ?x] => destruct (String.eqb k x)
         end; reflexivity.
Qed.

Lemma fill_settings_complete s :
  forallb (fun k => dict_mem k s) settings_keys = true ->
  fill_settings s = s.
Proof.
  unfold settings_keys, fill_settings, DEFAULT_SETTINGS. simpl.
  intros H.
  repeat (apply andb_prop in H; destruct H as [? H]).
  repeat match goal with
         | Hk : dict_mem ?k s = true |- _ =>
             rewrite (dict_setdefault_present s k _ Hk); clear Hk
         end.
  reflexivity.
Qed.

Lemma settings_of_ensure data :
  settings_of (ensure_settings data) = settings_of data.
Proof.
  unfold ensure_settings, settings_of.
  destruct (dict_get "settings" data) as [[]|] eqn:H;
    rewrite ?H, ?dict_get_set_same; reflexivity.
Qed.

Lemma dict_get_settings_ensure data :
  dict_get "settings" (ensure_settings data)
  = Some (JObj (settings_of data)).
Proof.
  unfold ensure_settings, settings_of.
  destruct (dict_get "settings" data) as [[]|] eqn:H;
    rewrite ?H, ?dict_get_set_same; reflexivity.
Qed.

Lemma dict_get_locations_ensure data :
  dict_get "locations" (ensure_settings data) = dict_get "locations" data.
Proof.
  unfold ensure_settings.
  destruct (dict_get "settings" data) as [[]|];
    try reflexivity; now apply dict_get_set_other.
Qed.

Lemma settings_of_set_locations data v :
  settings_of (dict_set "locations" v data) = settings_of data.
Proof.
  unfold settings_of. now rewrite dict_get_set_other.
Qed.

End StoreFacts.

(** ** Loading and saving *)

Section StoreClaims.
Context {E : Externals}.

Lemma convert_value_pair (a b : float) :
  convert_value (JArr [JFloat a; JFloat b]) = coords a b.
Proof. reflexivity. Qed.

Lemma convert_value_other v : is_legacy v = false -> convert_value v = v.
Proof.
  intros H. unfold convert_value. now rewrite converted_not_legacy.
Qed.

Lemma dict_get_convert_values d k :
  dict_get k (convert_values d) = option_map convert_value (dict_get k d).
Proof.
  induction d as [|[k' v] d IH]; simpl; [reflexivity|].
  now destruct (String.eqb k k').
Qed.

(** What [load_locations] does on a dict that has a [locations] key. *)
Lemma load_with_locations_key (data : dict json) :
  dict_mem "locations" data = true ->
  load_locations (Some (JsonText (JObj data)))
  = (normalise_current (JObj data), Some (JsonText (JObj data))).
Proof.
  intros H. unfold load_locations, json_load, py_contains. now rewrite H.
Qed.

Lemma normalise_current_converted (data locs locs' : dict json) :
  dict_get "locations" data = Some (JObj locs) ->
  convert_legacy locs = Ok locs' ->
  normalise_current (JObj data)
  = Ok (JObj (dict_set "settings"
                (JObj (fill_settings (settings_of data)))
                (ensure_settings (dict_set "locations" (JObj locs') data)))).
Proof.
  intros Hl Hc. unfold normalise_current, py_getitem, dict_getitem.
  rewrite Hl. cbn [bind items_of]. rewrite Hc. cbn [bind].
  now rewrite settings_of_ensure, settings_of_set_locations.
Qed.

(** C5: a backing file whose top-level object has no [locations] key is
    taken for a locations mapping: every two-element array [[lat, lon]] is
    converted to a [{lat, lon}] object, the result is wrapped as
    [{locations: ..., settings: defaults}], written back to the file and
    returned. *)
Theorem load_migrates_top_level (data : dict json) :
  wf_dict data ->
  dict_mem "locations" data = false ->
  forallb coordinates_convert (values data) = true ->
  let migrated := JObj [("locations", JObj (convert_values data));
                        ("settings", JObj DEFAULT_SETTINGS)] in
  load_locations (Some (JsonText (JObj data)))
  = (Ok migrated, Some (JsonText migrated)).
Proof.
  intros Hwf Hno Hconv.
  unfold load_locations, json_load, py_contains. rewrite Hno.
  unfold migrate_top_level, items_of. cbn [bind].
  rewrite convert_legacy_refines, convert_all_values by assumption.
  reflexivity.
Qed.

(** What the branch for a file with a [locations] key does: every legacy
    two-element entry of the locations is converted to a [{lat, lon}]
    object in the returned document, and the backing file is left as it
    was.  The write that follows the same loop in the top-level branch is
    missing here. *)
Theorem load_converts_inside_without_writing (data locs : dict json) :
  dict_get "locations" data = Some (JObj locs) ->
  wf_dict locs ->
  forallb coordinates_convert (values locs) = true ->
  exists data',
    load_locations (Some (JsonText (JObj data)))
    = (Ok (JObj data'), Some (JsonText (JObj data)))
    /\ dict_get "locations" data' = Some (JObj (convert_values locs)).
Proof.
  intros Hl Hwf Hconv.
  rewrite load_with_locations_key by (unfold dict_mem; now rewrite Hl).
  erewrite normalise_current_converted; eauto.
  2: { rewrite convert_legacy_refines by assumption.
       now apply convert_all_values. }
  eexists. split; [reflexivity|].
  rewrite dict_get_set_other by discriminate.
  rewrite dict_get_locations_ensure. apply dict_get_set_same.
Qed.

(** C6: loading a document that has a [locations] key fills each of the
    four settings keys that is missing with its default and keeps every
    settings key that is present; a document without
    [highlight_rain_over_mm] loads with that key at [1.0]. *)
Theorem load_fills_settings (data locs : dict json) :
  dict_get "locations" data = Some (JObj locs) ->
  forallb coordinates_convert (values locs) = true ->
  exists data' settings',
    fst (load_locations (Some (JsonText (JObj data)))) = Ok (JObj data')
    /\ dict_get "settings" data' = Some (JObj settings')
    /\ (forall k v, dict_get k (settings_of data) = Some v ->
                    dict_get k settings' = Some v)
    /\ (forall k, In k settings_keys ->
                  dict_get k (settings_of data) = None ->
                  dict_get k settings' = dict_get k DEFAULT_SETTINGS)
    /\ (forall k, ~ In k settings_keys ->
                  dict_get k settings' = dict_get k (settings_of data))
    /\ (dict_get "highlight_rain_over_mm" (settings_of data) = None ->
        dict_get "highlight_rain_over_mm" settings' = Some (JFloat 1)).
Proof.
  intros Hl Hconv.
  rewrite load_with_locations_key by (unfold dict_mem; now rewrite Hl).
  destruct (convert_loop_total locs locs Hconv) as [locs' Hc].
  erewrite normalise_current_converted; eauto.
  do 2 eexists. split; [reflexivity|]. split; [apply dict_get_set_same|].
  repeat split.
  - intros k v Hk. now rewrite dict_get_fill_settings, Hk.
  - intros k _ Hk. now rewrite dict_get_fill_settings, Hk.
  - intros k Hk. rewrite dict_get_fill_settings.
    destruct (dict_get k (settings_of data)); [reflexivity|].
    apply dict_get_not_in. exact Hk.
  - intros Hk. now rewrite dict_get_fill_settings, Hk.
Qed.

(** Loading a document in the current shape gives the document itself and
    writes nothing. *)
Lemma load_current_shape (doc : json) :
  current_shape doc = true ->
  load_locations (Some (JsonText doc)) = (Ok doc, Some (JsonText doc)).
Proof.
  destruct doc as [| | | | | |data]; try discriminate.
  unfold current_shape.
  destruct (dict_get "locations" data) as [[| | | | | |locs]|] eqn:Hl;
    try discriminate.
  destruct (dict_get "settings" data) as [[| | | | | |s]|] eqn:Hs;
    try discriminate.
  intros [Hlocs Hkeys]%andb_prop.
  rewrite load_with_locations_key by (unfold dict_mem; now rewrite Hl).
  erewrite normalise_current_converted; eauto.
  2: { apply convert_loop_no_legacy.
       rewrite forallb_forall in *. intros v Hv.
       now rewrite is_location_not_legacy by auto. }
  rewrite (dict_set_same data "locations") by assumption.
  unfold ensure_settings, settings_of. rewrite Hs.
  rewrite fill_settings_complete by assumption.
  now rewrite dict_set_same.
Qed.

(** C7: for a document in the current shape, loading it, saving what was
    loaded and loading again gives the document of the first load. *)
Theorem load_save_load (doc : json) :
  current_shape doc = true ->
  exists first,
    fst (load_locations (Some (JsonText doc))) = Ok first
    /\ first = doc
    /\ fst (load_locations
              (save_locations first
                 (snd (load_locations (Some (JsonText doc))))))
       = Ok first.
Proof.
  intros H. exists doc. rewrite load_current_shape by assumption.
  unfold save_locations. rewrite load_current_shape by assumption.
  auto.
Qed.

(** C8: a backing file that is not valid JSON makes [load_locations] raise
    the decoding error, and the file keeps its content. *)
Theorem load_malformed_raises (text : string) :
  exists e,
    load_locations (Some (NotJson text)) = (Err e, Some (NotJson text))
    /\ exn_cls e = JSONDecodeError.
Proof.
  unfold load_locations, json_load, raise.
  eexists. split; reflexivity.
Qed.

(** Whenever [load_locations] raises, the backing file is as it was. *)
Lemma load_error_keeps_file (f f' : fs) (e : exn) :
  load_locations f = (Err e, f') -> f' = f.
Proof.
  unfold load_locations. destruct f as [c|]; [|discriminate].
  destruct (json_load c); [|now intros [= _ <-]].
  destruct (py_contains "locations" a) as [[]|]; try now intros [= _ <-].
  destruct (migrate_top_level a); [discriminate|now intros [= _ <-]].
Qed.

End StoreClaims.

Lemma wf_legacy_top_level : wf_dict legacy_top_level.
Proof.
  unfold wf_dict, legacy_top_level. simpl.
  constructor; [simpl; intros [H|[]]; discriminate|].
  constructor; [simpl; intros []|]. constructor.
Defined.

Lemma load_migrates_top_level_witness :
  @load_locations sample_externals (Some (JsonText (JObj legacy_top_level)))
  = (Ok (JObj [("locations", JObj [("Aspen", coords 39.1 (-106.8));
                                   ("Vail", coords 39.6 (-106.4))]);
               ("settings", JObj DEFAULT_SETTINGS)]),
     Some (JsonText
             (JObj [("locations", JObj [("Aspen", coords 39.1 (-106.8));
                                        ("Vail", coords 39.6 (-106.4))]);
                    ("settings", JObj DEFAULT_SETTINGS)]))).
Proof.
  apply (@load_migrates_top_level sample_externals legacy_top_level).
  - exact wf_legacy_top_level.
  - reflexivity.
  - reflexivity.
Defined.

(** C2: for a backing file that has a [locations] key and a legacy
    [[lat, lon]] entry, the migrated form should be written back.  The
    program does not do it: on the file [legacy_inside] the document
    returned has the entry converted, and the backing file still holds the
    legacy form, which is not the migrated document. *)
Lemma load_leaves_legacy_inside_unwritten :
  @load_locations sample_externals (Some (JsonText legacy_inside))
  = (Ok legacy_inside_migrated, Some (JsonText legacy_inside))
  /\ Some (JsonText legacy_inside) <> Some (JsonText legacy_inside_migrated).
Proof.
  split; [reflexivity|discriminate].
Qed.

(** The same entry stored at the top level, without the [locations] key:
    there the program does write the migrated form back. *)
Example load_writes_legacy_top_level :
  @load_locations sample_externals
    (Some (JsonText (JObj [("Aspen", JArr [JFloat 39.1; JFloat (-106.8)])])))
  = (Ok (JObj [("locations", JObj [("Aspen", coords 39.1 (-106.8))]);
               ("settings", JObj DEFAULT_SETTINGS)]),
     Some (JsonText
             (JObj [("locations", JObj [("Aspen", coords 39.1 (-106.8))]);
                    ("settings", JObj DEFAULT_SETTINGS)]))).
Proof. reflexivity. Qed.

Lemma load_converts_inside_without_writing_witness :
  exists data',
    @load_locations sample_externals (Some (JsonText legacy_inside))
    = (Ok (JObj data'), Some (JsonText legacy_inside))
    /\ dict_get "locations" data'
       = Some (JObj [("Aspen", coords 39.1 (-106.8))]).
Proof.
  apply (@load_converts_inside_without_writing sample_externals
           _ [("Aspen", JArr [JFloat 39.1; JFloat (-106.8)])]).
  - reflexivity.
  - constructor; [intros []|constructor].
  - reflexivity.
Defined.

Lemma load_fills_settings_witness :
  exists data' settings',
    fst (@load_locations sample_externals
           (Some (JsonText (JObj missing_rain_threshold)))) = Ok (JObj data')
    /\ dict_get "settings" data' = Some (JObj settings')
    /\ (forall k v,
          dict_get k (settings_of missing_rain_threshold) = Some v ->
          dict_get k settings' = Some v)
    /\ (forall k, In k settings_keys ->
                  dict_get k (settings_of missing_rain_threshold) = None ->
                  dict_get k settings' = dict_get k DEFAULT_SETTINGS)
    /\ (forall k, ~ In k settings_keys ->
                  dict_get k settings'
                  = dict_get k (settings_of missing_rain_threshold))
    /\ (dict_get "highlight_rain_over_mm"
                 (settings_of missing_rain_threshold) = None ->
        dict_get "highlight_rain_over_mm" settings' = Some (JFloat 1)).
Proof.
  apply (@load_fills_settings sample_externals missing_rain_threshold
           DEFAULT_LOCATIONS).
  - reflexivity.
  - reflexivity.
Defined.

Lemma load_save_load_witness :
  exists first,
    fst (@load_locations sample_externals (Some (JsonText default_document)))
    = Ok first
    /\ first = default_document
    /\ fst (@load_locations sample_externals
              (save_locations first
                 (snd (@load_locations sample_externals
                         (Some (JsonText default_document))))))
       = Ok first.
Proof.
  apply (@load_save_load sample_externals default_document). reflexivity.
Defined.

Example load_missing_rain_threshold :
  fst (@load_locations sample_externals
         (Some (JsonText (JObj missing_rain_threshold))))
  = Ok (JObj [("locations", JObj DEFAULT_LOCATIONS);
              ("settings", JObj [("highlight_snow_enabled", JBool false);
                                 ("highlight_snow_over_cm", JFloat 7.5);
                                 ("highlight_rain_enabled", JBool true);
                                 ("highlight_rain_over_mm", JFloat 1)])]).
Proof. reflexivity. Qed.

Example load_without_file :
  @load_locations sample_externals None
  = (Ok default_document, Some (JsonText default_document)).
Proof. reflexivity. Qed.

(** ** The forecast rows *)

Lemma steps_length n : forall start freq,
  List.length (steps n start freq) = n.
Proof. induction n; intros; simpl; auto. Qed.

(** Leaving the end out of [n + 1] steps that reach it leaves the first
    [n] steps. *)
Lemma filter_steps_end n : forall start freq,
  freq <> 0 ->
  filter (fun t => negb (t =? start + Z.of_nat n * freq))
         (steps (S n) start freq)
  = steps n start freq.
Proof.
  induction n as [|n IH]; intros start freq Hf.
  - cbn [steps filter].
    replace (start + Z.of_nat 0 * freq) with start by (simpl; lia).
    now rewrite Z.eqb_refl.
  - change (steps (S (S n)) start freq)
      with (start :: steps (S n) (start + freq) freq).
    cbn [filter].
    replace (start + Z.of_nat (S n) * freq)
      with (start + freq + Z.of_nat n * freq) by lia.
    destruct (Z.eqb_spec start (start + freq + Z.of_nat n * freq)) as [He|_].
    + exfalso. assert (H : (Z.of_nat n + 1) * freq = 0) by lia.
      apply Z.mul_eq_0 in H. lia.
    + cbn [negb]. rewrite IH by assumption. reflexivity.
Qed.

(** A reply that ends [n] steps after its start gives those [n] steps. *)
Lemma date_range_exact start n freq :
  freq <> 0 ->
  date_range start (start + Z.of_nat n * freq) freq
  = Ok (steps n start freq).
Proof.
  intros Hf. unfold date_range.
  destruct (Z.eqb_spec freq 0); [contradiction|].
  replace (start + Z.of_nat n * freq - start) with (Z.of_nat n * freq) by lia.
  rewrite Z.div_mul by assumption.
  destruct (Z.ltb_spec (Z.of_nat n) 0); [lia|].
  rewrite Nat2Z.id. now rewrite filter_steps_end.
Qed.

(** Daily steps fall on consecutive calendar days. *)
Lemma daily_steps_dates n : forall start,
  map date_of (steps n start 86400)
  = map (fun i => date_of start + Z.of_nat i) (seq 0 n).
Proof.
  induction n as [|n IH]; intros start; [reflexivity|].
  cbn [steps map seq]. f_equal.
  - unfold date. lia.
  - rewrite IH, <- seq_shift, map_map. apply map_ext. intros i.
    unfold date_of.
    replace (start + 86400) with (start + 1 * 86400) by lia.
    rewrite Z.div_add by lia. lia.
Qed.

Lemma DataFrame_columns d v0 v1 v2 v3 v4 v5 df :
  DataFrame d v0 v1 v2 v3 v4 v5 = Ok df ->
  map Date df = d /\ map Snowfall_mm df = v0 /\ map Rain_mm df = v1.
Proof.
  unfold DataFrame.
  destruct (forallb _ _) eqn:Hlen; [|discriminate].
  intros [= <-]. revert v0 v1 v2 v3 v4 v5 Hlen.
  induction d as [|t d IH]; intros v0 v1 v2 v3 v4 v5 Hlen;
    destruct v0 as [|a0 w0], v1 as [|a1 w1], v2 as [|a2 w2],
             v3 as [|a3 w3], v4 as [|a4 w4], v5 as [|a5 w5];
    try (cbn in Hlen; rewrite ?andb_false_r in Hlen; discriminate).
  - now simpl.
  - cbn [zip_rows map Date Snowfall_mm Rain_mm].
    destruct (IH w0 w1 w2 w3 w4 w5) as (H1 & H2 & H3); [exact Hlen|].
    now rewrite H1, H2, H3.
Qed.

Section WeatherClaims.
Context {E : Externals}.

(** What a successful fetch has gone through. *)
Lemma get_daily_forecast_ok lat lon df :
  get_daily_forecast lat lon = Ok df ->
  exists r rs d start end_ dates v0 v1 v2 v3 v4 v5,
    weather_api lat lon = Ok (r :: rs)
    /\ Daily r = Some d
    /\ to_datetime (Time d + UtcOffsetSeconds r) = Ok start
    /\ to_datetime (TimeEnd d + UtcOffsetSeconds r) = Ok end_
    /\ date_range start end_ (Interval d) = Ok dates
    /\ nth_error (Variables d) 0 = Some v0
    /\ nth_error (Variables d) 1 = Some v1
    /\ DataFrame dates v0 v1 v2 v3 v4 v5 = Ok df.
Proof.
  unfold get_daily_forecast, variable_values.
  destruct (weather_api lat lon) as [[|r rs]|] eqn:Hapi; try discriminate.
  cbn [bind]. destruct (Daily r) as [d|] eqn:Hd; try discriminate.
  cbn [bind].
  destruct (to_datetime (Time d + _)) as [start|] eqn:Hs; try discriminate.
  cbn [bind].
  destruct (to_datetime (TimeEnd d + _)) as [end_|] eqn:He;
    try discriminate.
  cbn [bind].
  destruct (date_range start end_ (Interval d)) as [dates|] eqn:Hr;
    try discriminate.
  cbn [bind].
  destruct (nth_error (Variables d) 0) as [v0|] eqn:H0; try discriminate.
  destruct (nth_error (Variables d) 1) as [v1|] eqn:H1; try discriminate.
  destruct (nth_error (Variables d) 2) as [v2|]; try discriminate.
  destruct (nth_error (Variables d) 3) as [v3|]; try discriminate.
  destruct (nth_error (Variables d) 4) as [v4|]; try discriminate.
  destruct (nth_error (Variables d) 5) as [v5|]; try discriminate.
  cbn [bind]. intros H.
  exists r, rs, d, start, end_, dates, v0, v1, v2, v3, v4, v5.
  repeat split; auto.
Qed.

Lemma to_datetime_ok t t' : to_datetime t = Ok t' -> t' = t.
Proof.
  unfold to_datetime. destruct (_ && _); [now intros [= <-]|discriminate].
Qed.

(** C4, as the program has it: a successful fetch on a reply that covers
    the sixteen days asked for in daily steps has exactly sixteen rows, on
    consecutive calendar days from the first day of the reply. *)
Theorem forecast_sixteen_days lat lon df r rs d :
  get_daily_forecast lat lon = Ok df ->
  weather_api lat lon = Ok (r :: rs) ->
  Daily r = Some d ->
  Interval d = 86400 ->
  TimeEnd d = Time d + 16 * 86400 ->
  List.length df = 16%nat
  /\ map (fun x => date_of (Date x)) df
     = map (fun i => date_of (Time d + UtcOffsetSeconds r) + Z.of_nat i)
           (seq 0 16).
Proof.
  intros Hok Hapi Hd Hi He.
  destruct (get_daily_forecast_ok _ _ _ Hok)
    as (r' & rs' & d' & start & end_ & dates & v0 & v1 & v2 & v3 & v4 & v5
        & Hapi' & Hd' & Hs & He' & Hr & _ & _ & Hdf).
  rewrite Hapi in Hapi'. injection Hapi' as <- <-.
  rewrite Hd in Hd'. injection Hd' as <-.
  apply to_datetime_ok in Hs, He'. subst start end_.
  rewrite Hi, He in Hr.
  replace (Time d + 16 * 86400 + UtcOffsetSeconds r)
    with (Time d + UtcOffsetSeconds r + Z.of_nat 16 * 86400) in Hr by lia.
  rewrite date_range_exact in Hr by lia.
  assert (Hsteps : dates = steps 16 (Time d + UtcOffsetSeconds r) 86400)
    by congruence.
  subst dates. clear Hr.
  destruct (DataFrame_columns _ _ _ _ _ _ _ _ Hdf) as (Hdates & _ & _).
  split.
  - rewrite <- (length_map Date), Hdates. apply steps_length.
  - rewrite <- (map_map Date date_of), Hdates. apply daily_steps_dates.
Qed.

(** The fetch succeeds on a reply of [n] daily steps with its six
    variables of [n] values each, within the range of timestamps. *)
Lemma get_daily_forecast_total lat lon r rs d n v0 v1 v2 v3 v4 v5 :
  weather_api lat lon = Ok (r :: rs) ->
  Daily r = Some d ->
  Interval d = 86400 ->
  TimeEnd d = Time d + Z.of_nat n * 86400 ->
  Variables d = [v0; v1; v2; v3; v4; v5] ->
  forallb (same_length n) [v0; v1; v2; v3; v4; v5] = true ->
  to_datetime (Time d + UtcOffsetSeconds r)
  = Ok (Time d + UtcOffsetSeconds r) ->
  to_datetime (TimeEnd d + UtcOffsetSeconds r)
  = Ok (TimeEnd d + UtcOffsetSeconds r) ->
  get_daily_forecast lat lon
  = Ok (zip_rows (steps n (Time d + UtcOffsetSeconds r) 86400)
                 v0 v1 v2 v3 v4 v5).
Proof.
  intros Hapi Hd Hi He Hv Hlen Hs He'.
  unfold get_daily_forecast, variable_values.
  rewrite Hapi. cbn [bind]. rewrite Hd. cbn [bind].
  rewrite Hs, He'. cbn [bind]. rewrite Hi, He.
  replace (Time d + Z.of_nat n * 86400 + UtcOffsetSeconds r)
    with (Time d + UtcOffsetSeconds r + Z.of_nat n * 86400) by lia.
  rewrite date_range_exact by lia. cbn [bind].
  rewrite Hv. cbn [nth_error bind].
  unfold DataFrame. rewrite steps_length. now rewrite Hlen.
Qed.

(** The snowfall column of the rows is the list of values the service sent
    for its first variable, value for value. *)
Lemma snowfall_column_is_raw lat lon df :
  get_daily_forecast lat lon = Ok df ->
  exists r rs d raw,
    weather_api lat lon = Ok (r :: rs)
    /\ Daily r = Some d
    /\ nth_error (Variables d) 0 = Some raw
    /\ map Snowfall_mm df = raw.
Proof.
  intros Hok.
  destruct (get_daily_forecast_ok _ _ _ Hok)
    as (r & rs & d & start & end_ & dates & v0 & v1 & v2 & v3 & v4 & v5
        & Hapi & Hd & _ & _ & _ & Hv0 & _ & Hdf).
  destruct (DataFrame_columns _ _ _ _ _ _ _ _ Hdf) as (_ & Hsnow & _).
  exists r, rs, d, v0. auto.
Qed.

End WeatherClaims.

(** C4, as the claim states it, fails: on a reply of a single day the fetch
    succeeds with a single row. *)
Lemma forecast_one_day :
  exists df,
    @get_daily_forecast one_day_externals (JFloat 40) (JFloat (-105.5))
    = Ok df
    /\ List.length df = 1%nat.
Proof. eexists. split; reflexivity. Qed.

Lemma forecast_sixteen_days_witness :
  exists df,
    @get_daily_forecast sample_externals (JFloat 40) (JFloat (-105.5)) = Ok df
    /\ List.length df = 16%nat
    /\ map (fun x => date_of (Date x)) df
       = map (fun i => 20396 + Z.of_nat i) (seq 0 16).
Proof.
  eexists. split; [reflexivity|].
  apply (@forecast_sixteen_days sample_externals (JFloat 40)
           (JFloat (-105.5)) _ (constant_reply 1762239600 16 5 1) []
           {| Time := 1762239600; TimeEnd := 1762239600 + 16 * 86400;
              Interval := 86400;
              Variables := [repeat 5%float 16; repeat 1%float 16;
                            repeat 3%float 16; repeat (-4)%float 16;
                            repeat 18000%float 16; repeat 71%float 16] |});
    reflexivity.
Defined.

(** ** Comparing floats *)

Lemma compare_cont_swap (m1 m2 : positive) :
  Pos.compare_cont Eq m2 m1 = CompOpp (Pos.compare_cont Eq m1 m2).
Proof. symmetry. apply (Pos.compare_cont_antisym m1 m2 Eq). Qed.

Lemma SFeqb_not_ltb (a b : spec_float) :
  SFeqb a b = true -> SFltb b a = false.
Proof.
  unfold SFeqb, SFltb.
  destruct a as [s1|s1| |s1 m1 e1], b as [s2|s2| |s2 m2 e2];
    try destruct s1; try destruct s2; simpl;
    try discriminate; try reflexivity;
    rewrite (Z.compare_antisym e1 e2), (compare_cont_swap m1 m2);
    destruct (e1 ?= e2); simpl; try discriminate;
    destruct (Pos.compare_cont Eq m1 m2); simpl;
    try discriminate; reflexivity.
Qed.

(** Python's [a == b] excludes [a > b]. *)
Lemma float_gt_not_equal (a b : float) :
  PrimFloat.eqb a b = true -> float_gt a b = false.
Proof.
  unfold float_gt. rewrite FloatAxioms.eqb_spec, FloatAxioms.ltb_spec.
  apply SFeqb_not_ltb.
Qed.

Lemma float_gt_irrefl (a : float) : float_gt a a = false.
Proof.
  unfold float_gt. rewrite FloatAxioms.ltb_spec. unfold SFltb.
  destruct (Prim2SF a) as [s|s| |s m e]; simpl; try destruct s;
    try reflexivity;
    rewrite Z.compare_refl, Pos.compare_cont_refl;
    reflexivity.
Qed.

(** ** Rendering *)

Section GuiClaims.
Context {E : Externals}.

Lemma rain_high_ok x st on over :
  getboolean (highlight_rain_enabled st) = Ok on ->
  getdouble (highlight_rain_over_mm st) = Ok over ->
  rain_high x st = (Ok (on && float_gt x over), st).
Proof.
  intros Hon Hover. unfold rain_high, mbind, get_bool, get_double, ret.
  rewrite Hon. destruct on; [now rewrite Hover|reflexivity].
Qed.

Lemma snow_high_ok x st on over :
  getboolean (highlight_snow_enabled st) = Ok on ->
  getdouble (highlight_snow_over_cm st) = Ok over ->
  snow_high x st = (Ok (on && float_gt x over), st).
Proof.
  intros Hon Hover. unfold snow_high, mbind, get_bool, get_double, ret.
  rewrite Hon. destruct on; [now rewrite Hover|reflexivity].
Qed.

(** With readable settings and a finite weather code a day is rendered as
    its five pieces, appended to the output. *)
Lemma render_row_ok r st snow_on snow_over rain_on rain_over code :
  settings_read st snow_on snow_over rain_on rain_over ->
  int_of_float (Weather_code r) = Ok code ->
  render_row r st
  = (Ok tt,
     set_output
       (output st
        ++ row_pieces r code (rain_on && float_gt (Rain_mm r) rain_over)
             (snow_on && float_gt (Snowfall_mm r) snow_over))
       st).
Proof.
  intros (Hse & Hso & Hre & Hro) Hcode.
  unfold render_row.
  unfold mbind at 1. unfold lift. rewrite Hcode.
  unfold mbind at 1. unfold insert at 1.
  unfold mbind at 1.
  rewrite (rain_high_ok _ (set_output _ st) rain_on rain_over Hre Hro).
  unfold mbind at 1. unfold insert at 1.
  unfold mbind at 1. unfold insert at 1.
  unfold mbind at 1.
  rewrite (snow_high_ok _ (set_output _ (set_output _ (set_output _ st)))
             snow_on snow_over Hse Hso).
  unfold mbind at 1. unfold insert.
  unfold row_pieces, highlight, rain_text, snow_text, set_output.
  cbn [locations location_var location_values highlight_snow_enabled
       highlight_snow_over_cm highlight_rain_enabled
       highlight_rain_over_mm output error_boxes backing_file].
  rewrite <- !app_assoc. reflexivity.
Qed.

(** C1: in the line rendered for a forecast day the rain piece carries the
    highlight exactly when the rain toggle is on and the rain amount is
    strictly above the rain threshold, and the snow piece exactly when the
    snow toggle is on and the snow amount is strictly above the snow
    threshold; an amount equal to its threshold is not highlighted, and
    neither flag looks at the other's settings. *)
Theorem highlight_flags r st snow_on snow_over rain_on rain_over code :
  settings_read st snow_on snow_over rain_on rain_over ->
  int_of_float (Weather_code r) = Ok code ->
  exists head rain sep snow tail,
    render_row r st
    = (Ok tt, set_output (output st ++ [head; rain; sep; snow; tail]) st)
    /\ text rain = rain_text (Rain_mm r)
    /\ text snow = snow_text (Snowfall_mm r)
    /\ (tag rain = Some "rain_highlight" <->
        rain_on = true /\ float_gt (Rain_mm r) rain_over = true)
    /\ (tag snow = Some "snow_highlight" <->
        snow_on = true /\ float_gt (Snowfall_mm r) snow_over = true)
    /\ (tag rain = None <->
        ~ (rain_on = true /\ float_gt (Rain_mm r) rain_over = true))
    /\ (tag snow = None <->
        ~ (snow_on = true /\ float_gt (Snowfall_mm r) snow_over = true))
    /\ (PrimFloat.eqb (Rain_mm r) rain_over = true -> tag rain = None)
    /\ (PrimFloat.eqb (Snowfall_mm r) snow_over = true -> tag snow = None)
    /\ tag head = None /\ tag sep = None /\ tag tail = None.
Proof.
  intros Hset Hcode.
  rewrite (render_row_ok _ _ _ _ _ _ _ Hset Hcode). unfold row_pieces.
  do 5 eexists. split; [reflexivity|]. cbn [text tag].
  split; [reflexivity|]. split; [reflexivity|].
  assert (Hflag : forall (on : bool) (x over : float) (name : string),
             (highlight (on && float_gt x over) name = Some name <->
              on = true /\ float_gt x over = true)
             /\ (highlight (on && float_gt x over) name = None <->
                 ~ (on = true /\ float_gt x over = true))
             /\ (PrimFloat.eqb x over = true ->
                 highlight (on && float_gt x over) name = None)).
  { intros on x over name. repeat split.
    - destruct on, (float_gt x over); simpl; auto; discriminate.
    - destruct on, (float_gt x over); simpl; auto; discriminate.
    - intros [-> ->]. reflexivity.
    - destruct on, (float_gt x over); simpl; auto; try discriminate.
      + intros _ [_ H]. discriminate.
      + intros _ [H _]. discriminate.
      + intros _ [H _]. discriminate.
    - destruct on, (float_gt x over); simpl; auto. intros H. tauto.
    - intros Heq. rewrite (float_gt_not_equal _ _ Heq).
      now rewrite andb_false_r. }
  destruct (Hflag rain_on (Rain_mm r) rain_over "rain_highlight")
    as (R1 & R2 & R3).
  destruct (Hflag snow_on (Snowfall_mm r) snow_over "snow_highlight")
    as (S1 & S2 & S3).
  repeat split; try apply R1; try apply R2; try apply S1; try apply S2;
    auto.
Qed.

(** C3: the snow amount put on display for a row is the value the service
    sent at that position of its first variable, as it is: the text is the
    format of that value and the highlight compares that value. *)
Theorem snow_amount_is_raw lat lon df i x st snow_on snow_over rain_on rain_over
  code :
  get_daily_forecast lat lon = Ok df ->
  nth_error df i = Some x ->
  settings_read st snow_on snow_over rain_on rain_over ->
  int_of_float (Weather_code x) = Ok code ->
  exists r rs d raw v,
    weather_api lat lon = Ok (r :: rs)
    /\ Daily r = Some d
    /\ nth_error (Variables d) 0 = Some raw
    /\ nth_error raw i = Some v
    /\ Snowfall_mm x = v
    /\ exists before after,
        snd (render_row x st)
        = set_output
            (output st ++ before
             ++ [{| text := "Snow: " ++ format_1f v ++ " cm";
                    tag := highlight (snow_on && float_gt v snow_over)
                                     "snow_highlight" |}]
             ++ after)
            st.
Proof.
  intros Hok Hx Hset Hcode.
  destruct (snowfall_column_is_raw _ _ _ Hok)
    as (r & rs & d & raw & Hapi & Hd & Hraw & Hcol).
  exists r, rs, d, raw, (Snowfall_mm x).
  repeat (split; [assumption|]).
  split; [|split; [reflexivity|]].
  - rewrite <- Hcol. now apply map_nth_error.
  - rewrite (render_row_ok _ _ _ _ _ _ _ Hset Hcode). unfold row_pieces.
    eexists [_; _; _], [_]. reflexivity.
Qed.

Lemma fetch_for_coords (c : dict json) lat lon :
  dict_get "lat" c = Some lat ->
  dict_get "lon" c = Some lon ->
  fetch_for (JObj c) = get_daily_forecast lat lon.
Proof.
  intros Hlat Hlon. unfold fetch_for, py_getitem, dict_getitem.
  now rewrite Hlat, Hlon.
Qed.

(** Whatever the [try] block raises goes into an error box, and nothing
    else changes. *)
Lemma show_forecast_caught st loc e :
  dict_get (location_var st) (locations st) = Some loc ->
  fetch_for loc = Err e ->
  show_forecast st
  = (Ok tt, set_error_boxes (error_boxes st ++ [("Error", str_exn e)]) st).
Proof.
  intros Hloc Hfetch.
  unfold show_forecast, mbind, attr, lift, dict_getitem.
  rewrite Hloc, Hfetch. reflexivity.
Qed.

(** C9: when the fetch raises, [show_forecast] shows the text of the
    exception in an error box and returns; the output keeps the text it
    had, and the locations, the selection, the settings and the backing
    file are as before. *)
Theorem show_forecast_fetch_error st (c : dict json) lat lon e :
  dict_get (location_var st) (locations st) = Some (JObj c) ->
  dict_get "lat" c = Some lat ->
  dict_get "lon" c = Some lon ->
  get_daily_forecast lat lon = Err e ->
  exists st',
    show_forecast st = (Ok tt, st')
    /\ error_boxes st' = (error_boxes st ++ [("Error", str_exn e)])%list
    /\ output st' = output st
    /\ locations st' = locations st
    /\ location_var st' = location_var st
    /\ location_values st' = location_values st
    /\ highlight_snow_enabled st' = highlight_snow_enabled st
    /\ highlight_snow_over_cm st' = highlight_snow_over_cm st
    /\ highlight_rain_enabled st' = highlight_rain_enabled st
    /\ highlight_rain_over_mm st' = highlight_rain_over_mm st
    /\ backing_file st' = backing_file st.
Proof.
  intros Hloc Hlat Hlon Hfetch.
  eexists. split.
  - apply (show_forecast_caught st (JObj c) e Hloc).
    now rewrite (fetch_for_coords c lat lon).
  - repeat split.
Qed.

(** C10: [persist_state] either raises on a widget value it cannot read,
    and then writes nothing, or writes a document whose top-level keys
    are [locations] and [settings], the settings being the four recognised
    keys with booleans for the toggles and floats for the thresholds. *)
Theorem persist_state_document st :
  match persist_state st with
  | (Ok _, st') =>
      exists snow_on snow_over rain_on rain_over,
        backing_file st'
        = Some (JsonText
                  (JObj [("locations", JObj (locations st));
                         ("settings",
                          JObj [("highlight_snow_enabled", JBool snow_on);
                                ("highlight_snow_over_cm", JFloat snow_over);
                                ("highlight_rain_enabled", JBool rain_on);
                                ("highlight_rain_over_mm",
                                 JFloat rain_over)])]))
        /\ settings_read st snow_on snow_over rain_on rain_over
  | (Err _, st') => st' = st
  end.
Proof.
  unfold persist_state, current_settings, mbind, attr, get_bool, get_double,
    ret, settings_read.
  destruct (getboolean (highlight_snow_enabled st)) as [b1|]; [|reflexivity].
  destruct (getdouble (highlight_snow_over_cm st)) as [f1|]; [|reflexivity].
  destruct (getboolean (highlight_rain_enabled st)) as [b2|]; [|reflexivity].
  destruct (getdouble (highlight_rain_over_mm st)) as [f2|]; [|reflexivity].
  exists b1, f1, b2, f2. repeat split.
Qed.

(** With readable settings [persist_state] does write. *)
Lemma persist_state_total st snow_on snow_over rain_on rain_over :
  settings_read st snow_on snow_over rain_on rain_over ->
  exists st', persist_state st = (Ok tt, st').
Proof.
  intros (H1 & H2 & H3 & H4).
  unfold persist_state, current_settings, mbind, attr, get_bool, get_double,
    ret.
  rewrite H1, H2, H3, H4. eexists. reflexivity.
Qed.

End GuiClaims.

Lemma sample_settings_read :
  @settings_read sample_externals sample_app true 2.5 true 1.
Proof. repeat split. Defined.

Lemma highlight_flags_witness :
  exists head rain sep snow tail,
    @render_row sample_externals sample_row sample_app
    = (Ok tt,
       set_output (output sample_app ++ [head; rain; sep; snow; tail])
                  sample_app)
    /\ text rain = rain_text (Rain_mm sample_row)
    /\ text snow = snow_text (Snowfall_mm sample_row)
    /\ (tag rain = Some "rain_highlight" <->
        true = true /\ float_gt (Rain_mm sample_row) 1 = true)
    /\ (tag snow = Some "snow_highlight" <->
        true = true /\ float_gt (Snowfall_mm sample_row) 2.5 = true)
    /\ (tag rain = None <->
        ~ (true = true /\ float_gt (Rain_mm sample_row) 1 = true))
    /\ (tag snow = None <->
        ~ (true = true /\ float_gt (Snowfall_mm sample_row) 2.5 = true))
    /\ (PrimFloat.eqb (Rain_mm sample_row) 1 = true -> tag rain = None)
    /\ (PrimFloat.eqb (Snowfall_mm sample_row) 2.5 = true -> tag snow = None)
    /\ tag head = None /\ tag sep = None /\ tag tail = None.
Proof.
  apply (@highlight_flags sample_externals sample_row sample_app
           true 2.5 true 1 71).
  - exact sample_settings_read.
  - reflexivity.
Defined.

Lemma snow_amount_is_raw_witness :
  exists r rs d raw v,
    @weather_api sample_externals (JFloat 40) (JFloat (-105.5)) = Ok (r :: rs)
    /\ Daily r = Some d
    /\ nth_error (Variables d) 0 = Some raw
    /\ nth_error raw 0 = Some v
    /\ Snowfall_mm sample_row = v
    /\ exists before after,
        snd (@render_row sample_externals sample_row sample_app)
        = set_output
            (output sample_app ++ before
             ++ [{| text := "Snow: " ++ format_1f v ++ " cm";
                    tag := highlight (true && float_gt v 2.5)
                                     "snow_highlight" |}]
             ++ after)
            sample_app.
Proof.
  apply (@snow_amount_is_raw sample_externals (JFloat 40) (JFloat (-105.5))
           (zip_rows (steps 16 1762214400 86400)
              (repeat 5%float 16) (repeat 1%float 16) (repeat 3%float 16)
              (repeat (-4)%float 16) (repeat 18000%float 16)
              (repeat 71%float 16))
           0%nat sample_row sample_app true 2.5 true 1 71).
  - reflexivity.
  - reflexivity.
  - exact sample_settings_read.
  - reflexivity.
Defined.

Lemma show_forecast_fetch_error_witness :
  exists st',
    @show_forecast failing_externals sample_app = (Ok tt, st')
    /\ error_boxes st' = [("Error", "connection refused")]
    /\ output st' = output sample_app
    /\ locations st' = locations sample_app
    /\ location_var st' = location_var sample_app
    /\ location_values st' = location_values sample_app
    /\ highlight_snow_enabled st' = highlight_snow_enabled sample_app
    /\ highlight_snow_over_cm st' = highlight_snow_over_cm sample_app
    /\ highlight_rain_enabled st' = highlight_rain_enabled sample_app
    /\ highlight_rain_over_mm st' = highlight_rain_over_mm sample_app
    /\ backing_file st' = backing_file sample_app.
Proof.
  apply (@show_forecast_fetch_error failing_externals sample_app
           [("lat", JFloat 40.619605); ("lon", JFloat (-111.485073))]
           (JFloat 40.619605) (JFloat (-111.485073))
           (Exn OtherError "connection refused"));
    reflexivity.
Defined.

(** ** The program on the sample inputs *)

Example render_sample_row :
  output (snd (@render_row sample_externals sample_row
                 (set_output [] sample_app)))
  = [ {| text := "2025-11-04 | Min: -4.0°C | Max: 3.0°C | "; tag := None |};
      {| text := "Rain: 1.0 mm"; tag := None |};
      {| text := " | "; tag := None |};
      {| text := "Snow: 5.0 cm"; tag := Some "snow_highlight" |};
      {| text := " | Sun: 5.0 h | Code: 71" ++ nl; tag := None |} ].
Proof. reflexivity. Qed.

(** A rain amount just above the threshold is highlighted. *)
Example rain_just_above_threshold :
  @rain_high sample_externals 1.01 sample_app = (Ok true, sample_app)
  /\ @rain_high sample_externals 1 sample_app = (Ok false, sample_app).
Proof. split; reflexivity. Qed.

Example show_forecast_sample :
  let st := snd (@show_forecast sample_externals sample_app) in
  List.length (output st) = 82%nat
  /\ hd_error (output st)
     = Some {| text := "Daily forecast for Deer Valley" ++ nl; tag := None |}
  /\ error_boxes st = [].
Proof. repeat split. Qed.

Example persist_sample :
  backing_file (snd (@persist_state sample_externals sample_app))
  = Some (JsonText
            (JObj [("locations", JObj DEFAULT_LOCATIONS);
                   ("settings",
                    JObj [("highlight_snow_enabled", JBool true);
                          ("highlight_snow_over_cm", JFloat 2.5);
                          ("highlight_rain_enabled", JBool true);
                          ("highlight_rain_over_mm", JFloat 1)])])).
Proof. reflexivity. Qed.

(** Adding "Test Peak" at (40.0, -105.5) puts it in the store, in the
    combobox and in the selection. *)
Example add_test_peak :
  let st := snd (@save_new_location sample_externals
                   "Test Peak" "40.0" "-105.5" sample_app) in
  dict_get "Test Peak" (locations st) = Some (coords 40 (-105.5))
  /\ location_var st = "Test Peak"
  /\ In "Test Peak" (location_values st)
  /\ exists data,
       backing_file st = Some (JsonText (JObj data))
       /\ dict_get "locations" data = Some (JObj (locations st)).
Proof.
  repeat split.
  - simpl. tauto.
  - eexists. split; reflexivity.
Qed.

Example add_location_rejects_text :
  @save_new_location sample_externals "Test Peak" "north" "-105.5" sample_app
  = (Ok tt,
     set_error_boxes [("Error", "Latitude and longitude must be numbers")]
                     sample_app).
Proof. reflexivity. Qed.

(** * Further properties *)

(** ** Loading: every outcome *)

Lemma distinct_NoDup (l : list string) : distinct l = true -> NoDup l.
Proof.
  induction l as [|k l IH]; simpl; [constructor|].
  intros [Hk Hl]%andb_prop. constructor; [|auto].
  intros Hin. apply negb_true_iff in Hk.
  assert (Hex : existsb (String.eqb k) l = true).
  { apply existsb_exists. exists k. split; [assumption|apply String.eqb_refl]. }
  congruence.
Qed.

Lemma unique_keys_wf (d : dict json) :
  unique_keys (JObj d) = true -> wf_dict d.
Proof.
  simpl. intros [H _]%andb_prop. now apply distinct_NoDup.
Qed.

Lemma unique_keys_get (d : dict json) k v :
  unique_keys (JObj d) = true ->
  dict_get k d = Some v ->
  unique_keys v = true.
Proof.
  simpl. intros [_ H]%andb_prop. revert H.
  induction d as [|[k' v'] d IH]; simpl; [discriminate|].
  intros [Hv Hd]%andb_prop.
  destruct (String.eqb k k'); [now intros [= <-]|auto].
Qed.

Section StoreExtras.
Context {E : Externals}.

Lemma converted_result_not_legacy v v' :
  converted v = Ok v' -> is_legacy v' = false.
Proof.
  destruct (is_legacy v) eqn:Hl.
  - destruct v as [| | | | |l|]; try discriminate.
    destruct l as [|a [|b [|c l]]]; try discriminate. simpl.
    destruct (py_float a); [|discriminate]. simpl.
    destruct (py_float b); [|discriminate]. simpl.
    now intros [= <-].
  - rewrite converted_not_legacy by assumption. now intros [= <-].
Qed.

Lemma convert_all_no_legacy d : forall d',
  convert_all d = Ok d' ->
  forallb (fun v => negb (is_legacy v)) (values d') = true.
Proof.
  induction d as [|[k v] d IH]; simpl; intros d'.
  - now intros [= <-].
  - destruct (converted v) as [v'|] eqn:Hv; [|discriminate]. simpl.
    destruct (convert_all d) as [rest|]; [|discriminate]. simpl.
    intros [= <-]. simpl.
    rewrite (converted_result_not_legacy _ _ Hv). simpl. now apply IH.
Qed.

Lemma convert_all_fails d :
  existsb (fun v => negb (coordinates_convert v)) (values d) = true ->
  exists e, convert_all d = Err e.
Proof.
  induction d as [|[k v] d IH]; simpl; [discriminate|].
  unfold coordinates_convert at 1.
  destruct (converted v) as [v'|e]; simpl; [|now exists e].
  intros H. destruct (IH H) as [e He]. rewrite He. now exists e.
Qed.

Lemma fill_settings_has_keys s :
  forallb (fun k => dict_mem k (fill_settings s)) settings_keys = true.
Proof.
  unfold settings_keys, dict_mem. simpl.
  rewrite !dict_get_fill_settings.
  repeat match goal with
         | |- context [dict_get ?k s] => destruct (dict_get k s)
         end; reflexivity.
Qed.

(** The three ways [load_locations] returns a document. *)
Lemma load_ok_cases f doc f' :
  load_locations f = (Ok doc, f') ->
  (f = None /\ doc = default_document /\ f' = Some (JsonText doc))
  \/ (exists data locs,
        f = Some (JsonText (JObj data))
        /\ dict_get "locations" data = None
        /\ convert_legacy data = Ok locs
        /\ doc = JObj [("locations", JObj locs);
                       ("settings", JObj DEFAULT_SETTINGS)]
        /\ f' = Some (JsonText doc))
  \/ (exists data locs locs',
        f = Some (JsonText (JObj data))
        /\ dict_get "locations" data = Some (JObj locs)
        /\ convert_legacy locs = Ok locs'
        /\ doc = JObj (dict_set "settings"
                         (JObj (fill_settings (settings_of data)))
                         (ensure_settings
                            (dict_set "locations" (JObj locs') data)))
        /\ f' = f).
Proof.
  unfold load_locations.
  destruct f as [[text|j]|]; [discriminate| |].
  2: { intros [= <- <-]. left. auto. }
  unfold json_load, py_contains.
  destruct j as [| | | |s|l|data]; try discriminate.
  - destruct (index 0 "locations" s); [discriminate|].
    unfold migrate_top_level, items_of, raise. simpl. discriminate.
  - destruct (existsb _ l); [discriminate|].
    unfold migrate_top_level, items_of, raise. simpl. discriminate.
  - unfold dict_mem.
    destruct (dict_get "locations" data) as [v|] eqn:Hl.
    + destruct v as [| | | | | |locs];
        try (unfold normalise_current, py_getitem, dict_getitem;
             rewrite Hl; simpl; discriminate).
      destruct (convert_legacy locs) as [locs'|e] eqn:Hc.
      * rewrite (normalise_current_converted data locs locs' Hl Hc).
        intros [= <- <-]. right. right. exists data, locs, locs'. auto.
      * unfold normalise_current, py_getitem, dict_getitem.
        rewrite Hl. cbn [bind items_of]. rewrite Hc. discriminate.
    + unfold migrate_top_level, items_of. cbn [bind].
      destruct (convert_legacy data) as [locs|e] eqn:Hc; [|discriminate].
      cbn [bind]. intros [= <- <-]. right. left.
      exists data, locs. auto.
Qed.

(** A document with the loaded shape and no legacy location is what
    loading it gives, and loading it writes nothing. *)
Lemma load_fixed_point (doc : json) :
  loaded_shape doc = true ->
  forallb (fun v => negb (is_legacy v)) (values (locations_of doc)) = true ->
  load_locations (Some (JsonText doc)) = (Ok doc, Some (JsonText doc)).
Proof.
  destruct doc as [| | | | | |data]; try discriminate.
  unfold loaded_shape, locations_of.
  destruct (dict_get "locations" data) as [[| | | | | |locs]|] eqn:Hl;
    try discriminate.
  destruct (dict_get "settings" data) as [[| | | | | |s]|] eqn:Hs;
    try discriminate.
  intros Hkeys Hlocs.
  rewrite load_with_locations_key by (unfold dict_mem; now rewrite Hl).
  erewrite normalise_current_converted; eauto.
  2: { now apply convert_loop_no_legacy. }
  rewrite (dict_set_same data "locations") by assumption.
  unfold ensure_settings, settings_of. rewrite Hs.
  rewrite fill_settings_complete by assumption.
  now rewrite dict_set_same.
Qed.

Lemma load_ok_shape f doc f' :
  load_locations f = (Ok doc, f') ->
  loaded_shape doc = true.
Proof.
  intros H. destruct (load_ok_cases _ _ _ H)
    as [(_ & -> & _)
       |[(data & locs & _ & _ & _ & -> & _)
        |(data & locs & locs' & _ & Hl & _ & -> & _)]];
    try reflexivity.
  unfold loaded_shape.
  rewrite dict_get_set_other by discriminate.
  rewrite dict_get_locations_ensure, dict_get_set_same, dict_get_set_same.
  apply fill_settings_has_keys.
Qed.

(** X1: whatever the backing file was, a document that [load_locations]
    returns is a dict with a dict under [locations] and a dict under
    [settings], and each of the four recognised settings keys has a value
    there. *)
Theorem load_result_shape f doc f' :
  load_locations f = (Ok doc, f') ->
  exists data locs settings,
    doc = JObj data
    /\ dict_get "locations" data = Some (JObj locs)
    /\ dict_get "settings" data = Some (JObj settings)
    /\ forall k, In k settings_keys -> exists v, dict_get k settings = Some v.
Proof.
  intros H. apply load_ok_shape in H.
  destruct doc as [| | | | | |data]; try discriminate.
  unfold loaded_shape in H.
  destruct (dict_get "locations" data) as [[| | | | | |locs]|] eqn:Hl;
    try discriminate.
  destruct (dict_get "settings" data) as [[| | | | | |settings]|] eqn:Hs;
    try discriminate.
  exists data, locs, settings.
  do 3 (split; [auto|]).
  intros k Hk. rewrite forallb_forall in H. specialize (H k Hk).
  unfold dict_mem in H. destruct (dict_get k settings) as [v|];
    [now exists v|discriminate].
Qed.

(** X2: when [load_locations] raises, the backing file existed and is left
    exactly as it was; a missing file never makes it raise. *)
Theorem load_raises_only_on_existing_file f e f' :
  load_locations f = (Err e, f') ->
  f' = f /\ f <> None.
Proof.
  intros H. split; [now apply (load_error_keeps_file f f' e)|].
  intros ->. discriminate.
Qed.

(** X3: after [load_locations] has returned a document, the backing file
    exists and holds JSON; it is either the file as it was or exactly the
    document returned. *)
Theorem load_leaves_file_or_writes_result f doc f' :
  load_locations f = (Ok doc, f') ->
  exists j, f' = Some (JsonText j) /\ (f' = f \/ j = doc).
Proof.
  intros H. destruct (load_ok_cases _ _ _ H)
    as [(_ & _ & ->)
       |[(data & locs & _ & _ & _ & _ & ->)
        |(data & locs & locs' & -> & _ & _ & _ & ->)]];
    eexists; split; try reflexivity; auto.
Qed.

(** X4: loading is idempotent on files whose dicts have distinct keys: the
    document a load returns, once saved, loads as itself, without raising
    and whatever shape the file had before. *)
Theorem load_idempotent f doc f' :
  file_unique_keys f = true ->
  load_locations f = (Ok doc, f') ->
  load_locations (save_locations doc f')
  = (Ok doc, save_locations doc f').
Proof.
  intros Hu H. unfold save_locations.
  apply load_fixed_point; [now apply (load_ok_shape f doc f')|].
  destruct (load_ok_cases _ _ _ H)
    as [(_ & -> & _)
       |[(data & locs & -> & _ & Hc & -> & _)
        |(data & locs & locs' & -> & Hl & Hc & -> & _)]].
  - reflexivity.
  - simpl in Hu. cbn [locations_of dict_get String.eqb].
    change (dict_get "locations"
              [("locations", JObj locs); ("settings", JObj DEFAULT_SETTINGS)])
      with (Some (JObj locs)).
    rewrite convert_legacy_refines in Hc by now apply unique_keys_wf.
    now apply (convert_all_no_legacy data).
  - simpl in Hu. unfold locations_of.
    rewrite dict_get_set_other by discriminate.
    rewrite dict_get_locations_ensure, dict_get_set_same.
    assert (Hwf : wf_dict locs).
    { apply unique_keys_wf. now apply (unique_keys_get data "locations"). }
    rewrite convert_legacy_refines in Hc by assumption.
    now apply (convert_all_no_legacy locs).
Qed.

End StoreExtras.

(** ** Loading: what is kept and what is refused *)

Lemma keys_dict_set_present {V} (d : dict V) k v :
  In k (keys d) -> keys (dict_set k v d) = keys d.
Proof.
  induction d as [|[k' v'] d IH]; simpl; [tauto|].
  intros H. destruct (String.eqb_spec k k'); [reflexivity|].
  simpl. f_equal. apply IH. destruct H; congruence.
Qed.

Lemma keys_dict_set_fresh {V} (d : dict V) k v :
  ~ In k (keys d) -> keys (dict_set k v d) = (keys d ++ [k])%list.
Proof.
  induction d as [|[k' v'] d IH]; simpl; [reflexivity|].
  intros H. destruct (String.eqb_spec k k'); [subst; tauto|].
  simpl. f_equal. apply IH. tauto.
Qed.

Lemma dict_get_in_keys {V} (d : dict V) k :
  In k (keys d) <-> dict_mem k d = true.
Proof.
  unfold dict_mem. induction d as [|[k' v'] d IH]; simpl.
  - split; [tauto|discriminate].
  - destruct (String.eqb_spec k k'); [subst; tauto|].
    rewrite <- IH. split; [intros [H|H]; congruence|tauto].
Qed.

Section StoreKept.
Context {E : Externals}.

Lemma convert_loop_keys items : forall locations locations',
  (forall kv, In kv items -> In (fst kv) (keys locations)) ->
  convert_loop items locations = Ok locations' ->
  keys locations' = keys locations.
Proof.
  induction items as [|[k v] items IH]; intros locations locations' Hin; simpl.
  - now intros [= <-].
  - rewrite convert_entry_spec.
    destruct (converted v) as [v'|]; [|discriminate]. cbn [bind].
    assert (Hk : In k (keys locations)) by (apply (Hin (k, v)); now left).
    intros H. apply IH in H.
    + rewrite H. destruct (is_legacy v); [|reflexivity].
      now apply keys_dict_set_present.
    + intros kv Hkv.
      assert (Hold : In (fst kv) (keys locations))
        by (apply Hin; now right).
      destruct (is_legacy v); [|assumption].
      now rewrite keys_dict_set_present.
Qed.

Lemma convert_legacy_keys d d' :
  convert_legacy d = Ok d' -> keys d' = keys d.
Proof.
  apply convert_loop_keys. intros kv H. now apply in_map.
Qed.

(** X5: loading neither drops, adds, renames nor reorders locations: the
    names in the returned document are the names the file had, in the same
    order. *)
Theorem load_keeps_location_names (data : dict json) doc f' :
  load_locations (Some (JsonText (JObj data))) = (Ok doc, f') ->
  keys (locations_of doc) = keys (stored_locations data).
Proof.
  intros H. unfold stored_locations.
  destruct (load_ok_cases _ _ _ H)
    as [(Hf & _)
       |[(data0 & locs & Hf & Hl & Hc & -> & _)
        |(data0 & locs & locs' & Hf & Hl & Hc & -> & _)]];
    [discriminate| |]; injection Hf as <-; rewrite Hl.
  - cbn [locations_of].
    change (dict_get "locations"
              [("locations", JObj locs); ("settings", JObj DEFAULT_SETTINGS)])
      with (Some (JObj locs)).
    now apply convert_legacy_keys.
  - unfold locations_of.
    rewrite dict_get_set_other by discriminate.
    rewrite dict_get_locations_ensure, dict_get_set_same.
    now apply convert_legacy_keys.
Qed.

(** X6: a backing file whose top-level JSON value is not an object (an
    array, a string, a number, a boolean, null) makes [load_locations]
    raise, and the file is left as it was. *)
Theorem load_rejects_non_object (j : json) :
  is_object j = false ->
  exists e,
    load_locations (Some (JsonText j)) = (Err e, Some (JsonText j)).
Proof.
  intros Hj. unfold load_locations, json_load, py_contains.
  destruct j as [| | | |s|l|data]; try discriminate;
    try (eexists; reflexivity).
  - destruct (index 0 "locations" s); eexists; reflexivity.
  - destruct (existsb _ l); eexists; reflexivity.
Qed.

(** X7: a two-element array whose members [float()] refuses makes
    [load_locations] raise instead of returning the entry unconverted,
    before anything is written. *)
Theorem load_bad_coordinate_raises (data : dict json) :
  wf_dict (stored_locations data) ->
  existsb (fun v => negb (coordinates_convert v))
          (values (stored_locations data)) = true ->
  exists e,
    load_locations (Some (JsonText (JObj data)))
    = (Err e, Some (JsonText (JObj data))).
Proof.
  unfold stored_locations. intros Hwf Hbad.
  destruct (dict_get "locations" data) as [v|] eqn:Hl.
  - rewrite load_with_locations_key by (unfold dict_mem; now rewrite Hl).
    destruct v as [| | | | | |locs]; try discriminate.
    destruct (convert_all_fails _ Hbad) as [e He].
    exists e. f_equal.
    unfold normalise_current, py_getitem, dict_getitem.
    rewrite Hl. cbn [bind items_of].
    rewrite convert_legacy_refines, He by assumption. reflexivity.
  - destruct (convert_all_fails _ Hbad) as [e He]. exists e.
    unfold load_locations, json_load, py_contains, dict_mem. rewrite Hl.
    unfold migrate_top_level. cbn [bind items_of].
    rewrite convert_legacy_refines, He by assumption. reflexivity.
Qed.

(** X8: when the file has a [locations] key, loading changes nothing
    outside [locations] and [settings]: every other top-level key comes
    back with the value it had. *)
Theorem load_keeps_other_keys (data : dict json) doc f' k :
  dict_mem "locations" data = true ->
  load_locations (Some (JsonText (JObj data))) = (Ok doc, f') ->
  k <> "locations" -> k <> "settings" ->
  exists data', doc = JObj data' /\ dict_get k data' = dict_get k data.
Proof.
  intros Hmem H Hk1 Hk2.
  destruct (load_ok_cases _ _ _ H)
    as [(Hf & _)
       |[(data0 & locs & Hf & Hl & _)
        |(data0 & locs & locs' & Hf & Hl & Hc & -> & _)]];
    [discriminate| |]; injection Hf as <-.
  - unfold dict_mem in Hmem. rewrite Hl in Hmem. discriminate.
  - eexists. split; [reflexivity|].
    rewrite dict_get_set_other by congruence.
    unfold ensure_settings.
    destruct (dict_get "settings" (dict_set "locations" (JObj locs') data))
      as [[]|];
      rewrite ?(dict_get_set_other _ "settings" k) by congruence;
      now rewrite dict_get_set_other by congruence.
Qed.

End StoreKept.

Lemma load_result_shape_witness :
  exists data locs settings,
    JObj [("locations", JObj [("Aspen", coords 39.1 (-106.8));
                              ("Vail", coords 39.6 (-106.4))]);
          ("settings", JObj DEFAULT_SETTINGS)] = JObj data
    /\ dict_get "locations" data = Some (JObj locs)
    /\ dict_get "settings" data = Some (JObj settings)
    /\ forall k, In k settings_keys -> exists v, dict_get k settings = Some v.
Proof.
  apply (@load_result_shape sample_externals
           (Some (JsonText (JObj legacy_top_level))) _
           (Some (JsonText
                    (JObj [("locations",
                            JObj [("Aspen", coords 39.1 (-106.8));
                                  ("Vail", coords 39.6 (-106.4))]);
                           ("settings", JObj DEFAULT_SETTINGS)])))).
  reflexivity.
Defined.

Lemma load_raises_only_on_existing_file_witness :
  Some (NotJson "{ not json") = Some (NotJson "{ not json")
  /\ Some (NotJson "{ not json") <> None.
Proof.
  apply (@load_raises_only_on_existing_file sample_externals
           (Some (NotJson "{ not json"))
           (Exn JSONDecodeError "Expecting value")
           (Some (NotJson "{ not json"))).
  reflexivity.
Defined.

Lemma load_leaves_file_or_writes_result_witness :
  exists j,
    Some (JsonText legacy_inside) = Some (JsonText j)
    /\ (Some (JsonText legacy_inside) = Some (JsonText legacy_inside)
        \/ j = legacy_inside_migrated).
Proof.
  apply (@load_leaves_file_or_writes_result sample_externals
           (Some (JsonText legacy_inside)) legacy_inside_migrated
           (Some (JsonText legacy_inside))).
  reflexivity.
Defined.

Lemma load_idempotent_witness :
  @load_locations sample_externals
    (save_locations legacy_inside_migrated (Some (JsonText legacy_inside)))
  = (Ok legacy_inside_migrated,
     save_locations legacy_inside_migrated (Some (JsonText legacy_inside))).
Proof.
  apply (@load_idempotent sample_externals (Some (JsonText legacy_inside))).
  - reflexivity.
  - reflexivity.
Defined.

Lemma load_keeps_location_names_witness :
  keys (locations_of
          (JObj [("locations", JObj [("Aspen", coords 39.1 (-106.8));
                                     ("Vail", coords 39.6 (-106.4))]);
                 ("settings", JObj DEFAULT_SETTINGS)]))
  = keys (stored_locations legacy_top_level).
Proof.
  apply (@load_keeps_location_names sample_externals legacy_top_level _
           (Some (JsonText
                    (JObj [("locations",
                            JObj [("Aspen", coords 39.1 (-106.8));
                                  ("Vail", coords 39.6 (-106.4))]);
                           ("settings", JObj DEFAULT_SETTINGS)])))).
  reflexivity.
Defined.

Lemma load_rejects_non_object_witness :
  exists e,
    @load_locations sample_externals
      (Some (JsonText (JArr [JStr "locations"])))
    = (Err e, Some (JsonText (JArr [JStr "locations"]))).
Proof.
  apply (@load_rejects_non_object sample_externals). reflexivity.
Defined.

Lemma load_bad_coordinate_raises_witness :
  exists e,
    @load_locations sample_externals
      (Some (JsonText (JObj legacy_bad_coordinate)))
    = (Err e, Some (JsonText (JObj legacy_bad_coordinate))).
Proof.
  apply (@load_bad_coordinate_raises sample_externals legacy_bad_coordinate).
  - constructor; [intros []|constructor].
  - reflexivity.
Defined.

Lemma load_keeps_other_keys_witness :
  exists data',
    JObj [("version", JInt 2);
          ("locations", JObj [("Aspen", coords 39 (-106.8))]);
          ("settings", JObj DEFAULT_SETTINGS)] = JObj data'
    /\ dict_get "version" data' = dict_get "version" with_extra_key.
Proof.
  apply (@load_keeps_other_keys sample_externals with_extra_key _
           (Some (JsonText (JObj with_extra_key))) "version").
  - reflexivity.
  - reflexivity.
  - discriminate.
  - discriminate.
Defined.

(** ** The forecast frame in general *)






Section WeatherExtras.
Context {E : Externals}.



End WeatherExtras.



(** ** Rendering: every outcome *)

Lemma same_model_refl st : same_model st st.
Proof. repeat split. Qed.

Lemma same_model_trans st1 st2 st3 :
  same_model st1 st2 -> same_model st2 st3 -> same_model st1 st3.
Proof.
  unfold same_model. intuition congruence.
Qed.

Lemma set_output_same st : set_output (output st) st = st.
Proof. now destruct st. Qed.

Lemma code_of_ok r :
  code_is_finite r = true -> int_of_float (Weather_code r) = Ok (code_of r).
Proof.
  unfold code_is_finite, code_of. now destruct (int_of_float _).
Qed.

Section RenderExtras.
Context {E : Externals}.

Lemma rain_high_state x st : snd (rain_high x st) = st.
Proof.
  unfold rain_high, mbind, get_bool, get_double, ret.
  destruct (getboolean _) as [[]|]; try reflexivity.
  now destruct (getdouble _).
Qed.

Lemma snow_high_state x st : snd (snow_high x st) = st.
Proof.
  unfold snow_high, mbind, get_bool, get_double, ret.
  destruct (getboolean _) as [[]|]; try reflexivity.
  now destruct (getdouble _).
Qed.

Lemma rain_high_eq x st : rain_high x st = (fst (rain_high x st), st).
Proof.
  rewrite <- (rain_high_state x st) at 3. now destruct (rain_high x st).
Qed.

Lemma snow_high_eq x st : snow_high x st = (fst (snow_high x st), st).
Proof.
  rewrite <- (snow_high_state x st) at 3. now destruct (snow_high x st).
Qed.

Lemma rain_high_output x o st :
  fst (rain_high x (set_output o st)) = fst (rain_high x st).
Proof.
  unfold rain_high, mbind, get_bool, get_double, ret.
  cbn [set_output highlight_rain_enabled highlight_rain_over_mm].
  destruct (getboolean _) as [[]|]; try reflexivity.
  now destruct (getdouble _).
Qed.

Lemma snow_high_output x o st :
  fst (snow_high x (set_output o st)) = fst (snow_high x st).
Proof.
  unfold snow_high, mbind, get_bool, get_double, ret.
  cbn [set_output highlight_snow_enabled highlight_snow_over_cm].
  destruct (getboolean _) as [[]|]; try reflexivity.
  now destruct (getdouble _).
Qed.

(** The four ways the rendering of a day ends: before anything is
    inserted, after the first piece, after the rain piece and its
    separator, or with the whole line. *)
Lemma render_row_cases r st :
  render_row r st =
  match int_of_float (Weather_code r) with
  | Err e => (Err e, st)
  | Ok code =>
      match fst (rain_high (Rain_mm r) st) with
      | Err e => (Err e, set_output (output st ++ [head_piece r]) st)
      | Ok rain_hi =>
          match fst (snow_high (Snowfall_mm r) st) with
          | Err e =>
              (Err e,
               set_output
                 (output st
                  ++ [head_piece r;
                      {| text := rain_text (Rain_mm r);
                         tag := highlight rain_hi "rain_highlight" |};
                      {| text := " | "; tag := None |}])
                 st)
          | Ok snow_hi =>
              (Ok tt,
               set_output (output st ++ row_pieces r code rain_hi snow_hi)
                          st)
          end
      end
  end.
Proof.
  unfold render_row.
  unfold mbind at 1. unfold lift.
  destruct (int_of_float (Weather_code r)) as [code|e]; [|reflexivity].
  unfold mbind at 1. unfold insert at 1.
  unfold mbind at 1.
  rewrite (rain_high_eq _ (set_output _ st)), rain_high_output.
  destruct (fst (rain_high (Rain_mm r) st)) as [rain_hi|e]; [|reflexivity].
  unfold mbind at 1. unfold insert at 1.
  unfold mbind at 1. unfold insert at 1.
  unfold mbind at 1.
  rewrite (snow_high_eq _ (set_output _ (set_output _ (set_output _ st)))).
  rewrite !snow_high_output.
  destruct (fst (snow_high (Snowfall_mm r) st)) as [snow_hi|e].
  - unfold mbind at 1. unfold insert.
    unfold row_pieces, highlight, rain_text, snow_text, set_output.
    cbn [locations location_var location_values highlight_snow_enabled
         highlight_snow_over_cm highlight_rain_enabled
         highlight_rain_over_mm output error_boxes backing_file].
    rewrite <- !app_assoc. reflexivity.
  - unfold head_piece, highlight, set_output.
    cbn [locations location_var location_values highlight_snow_enabled
         highlight_snow_over_cm highlight_rain_enabled
         highlight_rain_over_mm output error_boxes backing_file].
    rewrite <- !app_assoc. reflexivity.
Qed.

Lemma render_row_frame r st :
  same_model st (snd (render_row r st))
  /\ error_boxes (snd (render_row r st)) = error_boxes st
  /\ exists added, output (snd (render_row r st)) = (output st ++ added)%list.
Proof.
  rewrite render_row_cases.
  destruct (int_of_float _).
  2: { repeat split. exists []. now rewrite app_nil_r. }
  destruct (fst (rain_high _ st)).
  2: { repeat split. eexists. reflexivity. }
  destruct (fst (snow_high _ st)); repeat split; eexists; reflexivity.
Qed.

Lemma render_rows_frame df : forall st,
  same_model st (snd (render_rows df st))
  /\ error_boxes (snd (render_rows df st)) = error_boxes st
  /\ exists added,
       output (snd (render_rows df st)) = (output st ++ added)%list.
Proof.
  induction df as [|r df IH]; intros st.
  - repeat split. exists []. now rewrite app_nil_r.
  - cbn [render_rows]. unfold mbind.
    destruct (render_row_frame r st) as (Hm & Hb & added & Ho).
    destruct (render_row r st) as [[[]|e] st1]; cbn [snd] in *.
    + destruct (IH st1) as (Hm' & Hb' & added' & Ho').
      split; [now apply (same_model_trans st st1)|].
      split; [congruence|].
      exists (added ++ added')%list. rewrite Ho', Ho. now rewrite app_assoc.
    + split; [assumption|]. split; [assumption|]. now exists added.
Qed.

(** With readable settings and finite weather codes the rows are rendered
    one line each, in order. *)
Lemma render_rows_ok df snow_on snow_over rain_on rain_over : forall st,
  settings_read st snow_on snow_over rain_on rain_over ->
  forallb code_is_finite df = true ->
  render_rows df st
  = (Ok tt,
     set_output
       (output st
        ++ flat_map (format_day snow_on snow_over rain_on rain_over) df)
       st).
Proof.
  induction df as [|r df IH]; intros st Hset Hcodes.
  - cbn [render_rows flat_map]. unfold ret.
    now rewrite app_nil_r, set_output_same.
  - cbn [forallb] in Hcodes. apply andb_prop in Hcodes as [Hr Hdf].
    cbn [render_rows flat_map]. unfold mbind.
    rewrite (render_row_ok r st _ _ _ _ _ Hset (code_of_ok r Hr)).
    rewrite (IH (set_output _ st) Hset Hdf).
    unfold format_day, set_output.
    cbn [locations location_var location_values highlight_snow_enabled
         highlight_snow_over_cm highlight_rain_enabled
         highlight_rain_over_mm output error_boxes backing_file].
    now rewrite <- app_assoc.
Qed.

(** The rows before the first one whose weather code is not finite are
    rendered, and the exception of that row ends the loop. *)
Lemma render_rows_stops good bad rest e snow_on snow_over rain_on rain_over :
  forall st,
  settings_read st snow_on snow_over rain_on rain_over ->
  forallb code_is_finite good = true ->
  int_of_float (Weather_code bad) = Err e ->
  render_rows (good ++ bad :: rest) st
  = (Err e,
     set_output
       (output st
        ++ flat_map (format_day snow_on snow_over rain_on rain_over) good)
       st).
Proof.
  induction good as [|r good IH]; intros st Hset Hcodes Hbad.
  - cbn [app render_rows flat_map]. unfold mbind.
    rewrite render_row_cases, Hbad.
    now rewrite app_nil_r, set_output_same.
  - cbn [forallb] in Hcodes. apply andb_prop in Hcodes as [Hr Hgood].
    cbn [app render_rows flat_map]. unfold mbind.
    rewrite (render_row_ok r st _ _ _ _ _ Hset (code_of_ok r Hr)).
    rewrite (IH (set_output _ st) Hset Hgood Hbad).
    unfold format_day, set_output.
    cbn [locations location_var location_values highlight_snow_enabled
         highlight_snow_over_cm highlight_rain_enabled
         highlight_rain_over_mm output error_boxes backing_file].
    now rewrite <- app_assoc.
Qed.

Lemma show_forecast_fetched st loc df :
  dict_get (location_var st) (locations st) = Some loc ->
  fetch_for loc = Ok df ->
  show_forecast st
  = render_rows df (set_output (forecast_header (location_var st)) st).
Proof.
  intros Hloc Hfetch.
  unfold show_forecast, mbind, attr, lift, dict_getitem.
  rewrite Hloc, Hfetch. reflexivity.
Qed.

(** X11: with a rain toggle and a snow toggle that are off, a day is
    rendered without highlight whatever the two thresholds hold: a
    threshold is read only when its toggle is on. *)
Theorem render_row_toggles_off r st code :
  getboolean (highlight_rain_enabled st) = Ok false ->
  getboolean (highlight_snow_enabled st) = Ok false ->
  int_of_float (Weather_code r) = Ok code ->
  render_row r st
  = (Ok tt, set_output (output st ++ row_pieces r code false false) st).
Proof.
  intros Hrain Hsnow Hcode. rewrite render_row_cases, Hcode.
  unfold rain_high, snow_high, mbind, get_bool, ret.
  now rewrite Hrain, Hsnow.
Qed.

(** X12: with the rain toggle on and a rain threshold that does not read
    as a number, rendering a day raises the error of that read after the
    first piece of the line has been inserted: the output is left with a
    line cut before its rain piece. *)
Theorem render_row_unreadable_threshold r st code e :
  int_of_float (Weather_code r) = Ok code ->
  getboolean (highlight_rain_enabled st) = Ok true ->
  getdouble (highlight_rain_over_mm st) = Err e ->
  render_row r st
  = (Err e, set_output (output st ++ [head_piece r]) st).
Proof.
  intros Hcode Hon Hover. rewrite render_row_cases, Hcode.
  unfold rain_high, mbind, get_bool, get_double.
  now rewrite Hon, Hover.
Qed.

(** X13: on a successful fetch, with readable settings and finite weather
    codes, [show_forecast] replaces the whole output by the title line,
    the line of dashes and one line of five pieces per row, in the order
    of the rows; no error box is shown and nothing else changes. *)
Theorem show_forecast_renders_all st loc df snow_on snow_over rain_on
  rain_over :
  dict_get (location_var st) (locations st) = Some loc ->
  fetch_for loc = Ok df ->
  settings_read st snow_on snow_over rain_on rain_over ->
  forallb code_is_finite df = true ->
  show_forecast st
  = (Ok tt,
     set_output
       (forecast_header (location_var st)
        ++ flat_map (format_day snow_on snow_over rain_on rain_over) df)
       st).
Proof.
  intros Hloc Hfetch Hset Hcodes.
  rewrite (show_forecast_fetched st loc df Hloc Hfetch).
  now rewrite (render_rows_ok df _ _ _ _ (set_output _ st) Hset Hcodes).
Qed.

(** X14: a row whose weather code is not finite (NaN, infinite) makes
    [show_forecast] raise while rendering: the old output is gone, the
    title and the rows before that row are displayed, the row and those
    after it are not, and no error box is shown. *)
Theorem show_forecast_stops_at_bad_code st loc good bad rest e snow_on
  snow_over rain_on rain_over :
  dict_get (location_var st) (locations st) = Some loc ->
  fetch_for loc = Ok (good ++ bad :: rest)%list ->
  settings_read st snow_on snow_over rain_on rain_over ->
  forallb code_is_finite good = true ->
  int_of_float (Weather_code bad) = Err e ->
  show_forecast st
  = (Err e,
     set_output
       (forecast_header (location_var st)
        ++ flat_map (format_day snow_on snow_over rain_on rain_over) good)
       st).
Proof.
  intros Hloc Hfetch Hset Hcodes Hbad.
  rewrite (show_forecast_fetched st loc _ Hloc Hfetch).
  now rewrite (render_rows_stops good bad rest e _ _ _ _
                 (set_output _ st) Hset Hcodes Hbad).
Qed.

Lemma show_forecast_frame st :
  same_model st (snd (show_forecast st)).
Proof.
  destruct (dict_get (location_var st) (locations st)) as [loc|] eqn:Hloc.
  - destruct (fetch_for loc) as [df|e] eqn:Hfetch.
    + rewrite (show_forecast_fetched st loc df Hloc Hfetch).
      destruct (render_rows_frame df (set_output
                  (forecast_header (location_var st)) st)) as (Hm & _).
      apply (same_model_trans st (set_output
               (forecast_header (location_var st)) st));
        [repeat split|exact Hm].
    + rewrite (show_forecast_caught st loc e Hloc Hfetch). repeat split.
  - unfold show_forecast, mbind, attr, lift, dict_getitem.
    rewrite Hloc. repeat split.
Qed.

(** X15: however it ends, [show_forecast] leaves the locations, the
    selection, the combobox list, the four settings and the backing file
    as they were; and it shows an error box only when it leaves the output
    untouched, one box at most. *)
Theorem show_forecast_keeps_model st :
  same_model st (snd (show_forecast st))
  /\ (error_boxes (snd (show_forecast st)) = error_boxes st
      \/ (output (snd (show_forecast st)) = output st
          /\ exists message,
               error_boxes (snd (show_forecast st))
               = (error_boxes st ++ [("Error", message)])%list)).
Proof.
  split; [apply show_forecast_frame|].
  destruct (dict_get (location_var st) (locations st)) as [loc|] eqn:Hloc.
  - destruct (fetch_for loc) as [df|e] eqn:Hfetch.
    + left. rewrite (show_forecast_fetched st loc df Hloc Hfetch).
      destruct (render_rows_frame df (set_output
                  (forecast_header (location_var st)) st)) as (_ & Hb & _).
      exact Hb.
    + right. rewrite (show_forecast_caught st loc e Hloc Hfetch).
      split; [reflexivity|]. now exists (str_exn e).
  - left. unfold show_forecast, mbind, attr, lift, dict_getitem.
    now rewrite Hloc.
Qed.

(** X16: when the selected name is not among the locations,
    [show_forecast] raises the [KeyError] of the lookup: nothing is
    fetched or displayed, no error box is shown, the state is untouched. *)
Theorem show_forecast_unknown_selection st :
  dict_get (location_var st) (locations st) = None ->
  show_forecast st
  = (Err (Exn KeyError ("'" ++ location_var st ++ "'")), st).
Proof.
  intros Hloc. unfold show_forecast, mbind, attr, lift, dict_getitem.
  now rewrite Hloc.
Qed.

(** X17: a selected location that is a dict without a [lat] key is
    reported in an error box with the text of the [KeyError], without the
    service being asked; the output and the rest of the state stay. *)
Theorem show_forecast_missing_latitude st (c : dict json) :
  dict_get (location_var st) (locations st) = Some (JObj c) ->
  dict_get "lat" c = None ->
  show_forecast st
  = (Ok tt, set_error_boxes (error_boxes st ++ [("Error", "'lat'")]) st).
Proof.
  intros Hloc Hlat.
  apply (show_forecast_caught st (JObj c) (Exn KeyError "'lat'") Hloc).
  unfold fetch_for, py_getitem, dict_getitem. now rewrite Hlat.
Qed.

End RenderExtras.

(** ** Saving from the forms *)

Section FormExtras.
Context {E : Externals}.

Lemma current_settings_state st : snd (current_settings st) = st.
Proof.
  unfold current_settings, mbind, get_bool, get_double, ret.
  destruct (getboolean (highlight_snow_enabled st)); [|reflexivity].
  destruct (getdouble (highlight_snow_over_cm st)); [|reflexivity].
  destruct (getboolean (highlight_rain_enabled st)); [|reflexivity].
  now destruct (getdouble (highlight_rain_over_mm st)).
Qed.

Lemma current_settings_ok st snow_on snow_over rain_on rain_over :
  settings_read st snow_on snow_over rain_on rain_over ->
  current_settings st
  = (Ok (JObj [("highlight_snow_enabled", JBool snow_on);
               ("highlight_snow_over_cm", JFloat snow_over);
               ("highlight_rain_enabled", JBool rain_on);
               ("highlight_rain_over_mm", JFloat rain_over)]), st).
Proof.
  intros (H1 & H2 & H3 & H4).
  unfold current_settings, mbind, get_bool, get_double, ret.
  now rewrite H1, H2, H3, H4.
Qed.

(** [persist_state] in terms of the settings it reads. *)
Lemma persist_state_cases st :
  persist_state st =
  match fst (current_settings st) with
  | Ok settings =>
      (Ok tt,
       set_backing_file
         (Some (JsonText (JObj [("locations", JObj (locations st));
                                ("settings", settings)])))
         st)
  | Err e => (Err e, st)
  end.
Proof.
  unfold persist_state, mbind, attr.
  assert (Hst := current_settings_state st).
  destruct (current_settings st) as [[settings|e] st']; cbn [fst snd] in *;
    now subst st'.
Qed.

Lemma persist_state_frame st : same_but_file st (snd (persist_state st)).
Proof.
  rewrite persist_state_cases.
  destruct (fst (current_settings st)); repeat split.
Qed.

Lemma current_settings_locations l st :
  fst (current_settings (set_locations l st)) = fst (current_settings st).
Proof.
  unfold current_settings, mbind, get_bool, get_double, ret.
  cbn [set_locations highlight_snow_enabled highlight_snow_over_cm
       highlight_rain_enabled highlight_rain_over_mm].
  destruct (getboolean (highlight_snow_enabled st)); [|reflexivity].
  destruct (getdouble (highlight_snow_over_cm st)); [|reflexivity].
  destruct (getboolean (highlight_rain_enabled st)); [|reflexivity].
  now destruct (getdouble (highlight_rain_over_mm st)).
Qed.

(** The Save button on an accepted entry, in terms of what
    [persist_state] does. *)
Lemma save_new_location_accepted name_entry lat_entry lon_entry lat lon st :
  float_of_str lat_entry = Some lat ->
  float_of_str lon_entry = Some lon ->
  strip name_entry <> "" ->
  let name := strip name_entry in
  let st1 := set_locations (dict_set name (coords lat lon) (locations st))
                           st in
  save_new_location name_entry lat_entry lon_entry st =
  match fst (current_settings st) with
  | Ok settings =>
      (Ok tt,
       set_location_var name
         (set_location_values (keys (locations st1))
            (set_backing_file
               (Some (JsonText (JObj [("locations", JObj (locations st1));
                                      ("settings", settings)])))
               st1)))
  | Err e => (Err e, st1)
  end.
Proof.
  intros Hlat Hlon Hname name st1.
  unfold save_new_location, float_of_entry. rewrite Hlat, Hlon.
  destruct (String.eqb_spec (strip name_entry) ""); [contradiction|].
  unfold mbind at 1. unfold mbind at 1.
  fold name. fold st1.
  rewrite persist_state_cases. subst st1.
  rewrite current_settings_locations.
  destruct (fst (current_settings st)); reflexivity.
Qed.

(** X18: [persist_state] followed by [load_locations] is a round trip: with
    readable settings and no location in the legacy form, the document
    written is read back as it is, without the file being rewritten, and
    it holds the locations of the application and the four settings as
    read from the widgets. *)
Theorem persist_then_load st snow_on snow_over rain_on rain_over :
  settings_read st snow_on snow_over rain_on rain_over ->
  forallb (fun v => negb (is_legacy v)) (values (locations st)) = true ->
  let doc := JObj [("locations", JObj (locations st));
                   ("settings",
                    JObj [("highlight_snow_enabled", JBool snow_on);
                          ("highlight_snow_over_cm", JFloat snow_over);
                          ("highlight_rain_enabled", JBool rain_on);
                          ("highlight_rain_over_mm", JFloat rain_over)])] in
  exists st',
    persist_state st = (Ok tt, st')
    /\ same_but_file st st'
    /\ load_locations (backing_file st') = (Ok doc, backing_file st').
Proof.
  intros Hset Hlocs doc.
  rewrite persist_state_cases, (current_settings_ok st _ _ _ _ Hset).
  cbn [fst]. eexists. split; [reflexivity|]. split; [repeat split|].
  cbn [set_backing_file backing_file].
  apply load_fixed_point; [reflexivity|exact Hlocs].
Qed.

(** X19: the Save button of the add-location window, on two numbers and a
    name that is not empty once stripped, with readable settings: the
    location is stored under the stripped name (replacing a location of
    that name, every other location kept), the document written holds the
    new locations, the combobox offers the names of the locations, the new
    name is selected, and no error box is shown. *)
Theorem save_new_location_adds name_entry lat_entry lon_entry lat lon st
  snow_on snow_over rain_on rain_over :
  float_of_str lat_entry = Some lat ->
  float_of_str lon_entry = Some lon ->
  strip name_entry <> "" ->
  settings_read st snow_on snow_over rain_on rain_over ->
  exists st',
    save_new_location name_entry lat_entry lon_entry st = (Ok tt, st')
    /\ dict_get (strip name_entry) (locations st') = Some (coords lat lon)
    /\ (forall k, k <> strip name_entry ->
                  dict_get k (locations st') = dict_get k (locations st))
    /\ location_var st' = strip name_entry
    /\ location_values st' = keys (locations st')
    /\ backing_file st'
       = Some (JsonText
                 (JObj [("locations", JObj (locations st'));
                        ("settings",
                         JObj [("highlight_snow_enabled", JBool snow_on);
                               ("highlight_snow_over_cm", JFloat snow_over);
                               ("highlight_rain_enabled", JBool rain_on);
                               ("highlight_rain_over_mm",
                                JFloat rain_over)])]))
    /\ error_boxes st' = error_boxes st
    /\ output st' = output st.
Proof.
  intros Hlat Hlon Hname Hset.
  rewrite (save_new_location_accepted _ _ _ lat lon st Hlat Hlon Hname).
  rewrite (current_settings_ok st _ _ _ _ Hset). cbn [fst].
  eexists. split; [reflexivity|].
  cbn [set_location_var set_location_values set_backing_file set_locations
       locations location_var location_values backing_file error_boxes
       output].
  split; [apply dict_get_set_same|].
  split; [intros k Hk; apply dict_get_set_other; congruence|].
  repeat split.
Qed.

(** X20: the Save button refuses a latitude or a longitude that is not a
    number and a name that is empty once stripped: it shows one error box
    and changes nothing else, neither the locations nor the backing file,
    and it does not raise. *)
Theorem save_new_location_rejects name_entry lat_entry lon_entry st :
  float_of_str lat_entry = None
  \/ float_of_str lon_entry = None
  \/ strip name_entry = "" ->
  exists message,
    save_new_location name_entry lat_entry lon_entry st
    = (Ok tt, set_error_boxes (error_boxes st ++ [("Error", message)]) st).
Proof.
  intros H. unfold save_new_location, float_of_entry.
  destruct (float_of_str lat_entry) as [lat|];
    [|eexists; reflexivity].
  destruct (float_of_str lon_entry) as [lon|];
    [|eexists; reflexivity].
  destruct H as [H|[H|H]]; try discriminate.
  rewrite H. eexists. reflexivity.
Qed.

(** X21: when the settings cannot be read, the Save button of the
    add-location window raises after the location has been put in the
    locations: the new location is in memory, while the backing file, the
    combobox list and the selection are as before and no error box is
    shown. *)
Theorem save_new_location_unsaved name_entry lat_entry lon_entry lat lon st
  e :
  float_of_str lat_entry = Some lat ->
  float_of_str lon_entry = Some lon ->
  strip name_entry <> "" ->
  fst (current_settings st) = Err e ->
  save_new_location name_entry lat_entry lon_entry st
  = (Err e,
     set_locations
       (dict_set (strip name_entry) (coords lat lon) (locations st)) st).
Proof.
  intros Hlat Hlon Hname Herr.
  rewrite (save_new_location_accepted _ _ _ lat lon st Hlat Hlon Hname).
  now rewrite Herr.
Qed.

(** X22: the OK button of the configuration window refuses a threshold
    that does not read as a number: it shows the error box, does not
    raise, and writes nothing. *)
Theorem apply_and_close_rejects st :
  is_ok (getdouble (highlight_snow_over_cm st))
  && is_ok (getdouble (highlight_rain_over_mm st)) = false ->
  apply_and_close st
  = (Ok tt,
     set_error_boxes
       (error_boxes st ++ [("Error", "Threshold values must be numbers.")])
       st).
Proof.
  unfold apply_and_close, mbind, get_double.
  destruct (getdouble (highlight_snow_over_cm st)); [|reflexivity].
  destruct (getdouble (highlight_rain_over_mm st)); [discriminate|].
  reflexivity.
Qed.

(** X23: with readable settings the OK button of the configuration window
    writes the document of the current locations and settings and shows no
    error box; nothing but the backing file changes. *)
Theorem apply_and_close_saves st snow_on snow_over rain_on rain_over :
  settings_read st snow_on snow_over rain_on rain_over ->
  apply_and_close st
  = (Ok tt,
     set_backing_file
       (Some (JsonText
                (JObj [("locations", JObj (locations st));
                       ("settings",
                        JObj [("highlight_snow_enabled", JBool snow_on);
                              ("highlight_snow_over_cm", JFloat snow_over);
                              ("highlight_rain_enabled", JBool rain_on);
                              ("highlight_rain_over_mm",
                               JFloat rain_over)])])))
       st).
Proof.
  intros Hset. unfold apply_and_close, mbind, get_double.
  destruct Hset as (H1 & H2 & H3 & H4). rewrite H2, H4.
  rewrite persist_state_cases.
  now rewrite (current_settings_ok st _ _ _ _ (conj H1 (conj H2 (conj H3 H4)))).
Qed.

Lemma apply_and_close_frame st :
  locations (snd (apply_and_close st)) = locations st
  /\ location_var (snd (apply_and_close st)) = location_var st.
Proof.
  unfold apply_and_close, mbind, get_double.
  destruct (getdouble (highlight_snow_over_cm st)); [|now split].
  destruct (getdouble (highlight_rain_over_mm st)); [|now split].
  destruct (persist_state_frame st) as (H1 & H2 & _). now split.
Qed.

Lemma dict_mem_set_kept {V} (d : dict V) k k' v :
  dict_mem k d = true -> dict_mem k (dict_set k' v d) = true.
Proof.
  unfold dict_mem. destruct (String.eqb_spec k' k).
  - subst. now rewrite dict_get_set_same.
  - now rewrite dict_get_set_other.
Qed.

(** X24: the three callbacks keep the selection valid: when the selected
    name is one of the locations before [show_forecast], the OK button of
    the configuration window or the Save button of the add-location window
    runs, it is one of the locations afterwards, however the callback
    ends. *)
Theorem callbacks_keep_selection_valid st :
  selection_valid st = true ->
  selection_valid (snd (show_forecast st)) = true
  /\ selection_valid (snd (apply_and_close st)) = true
  /\ forall name_entry lat_entry lon_entry,
       selection_valid
         (snd (save_new_location name_entry lat_entry lon_entry st)) = true.
Proof.
  unfold selection_valid. intros Hsel. split; [|split].
  - destruct (show_forecast_frame st) as (H1 & H2 & _).
    now rewrite H1, H2.
  - destruct (apply_and_close_frame st) as (H1 & H2). now rewrite H1, H2.
  - intros name_entry lat_entry lon_entry.
    destruct (float_of_str lat_entry) as [lat|] eqn:Hlat.
    2: { unfold save_new_location, float_of_entry. now rewrite Hlat. }
    destruct (float_of_str lon_entry) as [lon|] eqn:Hlon.
    2: { unfold save_new_location, float_of_entry. now rewrite Hlat, Hlon. }
    destruct (String.eqb_spec (strip name_entry) "") as [Hname|Hname].
    { unfold save_new_location, float_of_entry.
      now rewrite Hlat, Hlon, Hname. }
    rewrite (save_new_location_accepted _ _ _ lat lon st Hlat Hlon Hname).
    destruct (fst (current_settings st)).
    + cbn [snd set_location_var set_location_values set_backing_file
           set_locations locations location_var].
      unfold dict_mem. now rewrite dict_get_set_same.
    + cbn [snd set_locations locations location_var].
      now apply dict_mem_set_kept.
Qed.

End FormExtras.

(** ** The further properties on the sample inputs *)

Lemma render_row_toggles_off_witness :
  @render_row sample_externals sample_row toggles_off_app
  = (Ok tt,
     set_output (output toggles_off_app ++ row_pieces sample_row 71 false false)
                toggles_off_app).
Proof.
  apply (@render_row_toggles_off sample_externals sample_row toggles_off_app
           71); reflexivity.
Defined.

Lemma render_row_unreadable_threshold_witness :
  @render_row sample_externals sample_row unreadable_app
  = (Err (Exn TclError "expected floating-point number"),
     set_output (output unreadable_app ++ [head_piece sample_row])
                unreadable_app).
Proof.
  apply (@render_row_unreadable_threshold sample_externals sample_row
           unreadable_app 71); reflexivity.
Defined.

Lemma show_forecast_renders_all_witness :
  @show_forecast sample_externals sample_app
  = (Ok tt,
     set_output
       (forecast_header (location_var sample_app)
        ++ flat_map (format_day true 2.5 true 1)
             (zip_rows (steps 16 1762214400 86400)
                (repeat 5%float 16) (repeat 1%float 16) (repeat 3%float 16)
                (repeat (-4)%float 16) (repeat 18000%float 16)
                (repeat 71%float 16)))
       sample_app).
Proof.
  apply (@show_forecast_renders_all sample_externals sample_app
           (coords 40.619605 (-111.485073))).
  - reflexivity.
  - reflexivity.
  - exact sample_settings_read.
  - reflexivity.
Defined.

Lemma show_forecast_stops_at_bad_code_witness :
  @show_forecast nan_code_externals sample_app
  = (Err (Exn ValueError "cannot convert float NaN to integer"),
     set_output
       (forecast_header (location_var sample_app)
        ++ flat_map (format_day true 2.5 true 1) [sample_row])
       sample_app).
Proof.
  apply (@show_forecast_stops_at_bad_code nan_code_externals sample_app
           (coords 40.619605 (-111.485073)) [sample_row] nan_code_row []).
  - reflexivity.
  - reflexivity.
  - repeat split.
  - reflexivity.
  - reflexivity.
Defined.

Lemma show_forecast_unknown_selection_witness :
  @show_forecast sample_externals (set_location_var "Nowhere" sample_app)
  = (Err (Exn KeyError "'Nowhere'"), set_location_var "Nowhere" sample_app).
Proof.
  apply (@show_forecast_unknown_selection sample_externals
           (set_location_var "Nowhere" sample_app)).
  reflexivity.
Defined.

Lemma show_forecast_missing_latitude_witness :
  @show_forecast sample_externals odd_location_app
  = (Ok tt, set_error_boxes [("Error", "'lat'")] odd_location_app).
Proof.
  apply (@show_forecast_missing_latitude sample_externals odd_location_app
           [("lon", JFloat (-105.5))]); reflexivity.
Defined.

Lemma persist_then_load_witness :
  exists st',
    @persist_state sample_externals sample_app = (Ok tt, st')
    /\ same_but_file sample_app st'
    /\ @load_locations sample_externals (backing_file st')
       = (Ok (JObj [("locations", JObj (locations sample_app));
                    ("settings",
                     JObj [("highlight_snow_enabled", JBool true);
                           ("highlight_snow_over_cm", JFloat 2.5);
                           ("highlight_rain_enabled", JBool true);
                           ("highlight_rain_over_mm", JFloat 1)])]),
          backing_file st').
Proof.
  apply (@persist_then_load sample_externals sample_app true 2.5 true 1).
  - exact sample_settings_read.
  - reflexivity.
Defined.

Lemma save_new_location_adds_witness :
  exists st',
    @save_new_location sample_externals "Test Peak" "40.0" "-105.5"
      sample_app = (Ok tt, st')
    /\ dict_get "Test Peak" (locations st') = Some (coords 40 (-105.5))
    /\ (forall k, k <> "Test Peak" ->
                  dict_get k (locations st')
                  = dict_get k (locations sample_app))
    /\ location_var st' = "Test Peak"
    /\ location_values st' = keys (locations st')
    /\ backing_file st'
       = Some (JsonText
                 (JObj [("locations", JObj (locations st'));
                        ("settings",
                         JObj [("highlight_snow_enabled", JBool true);
                               ("highlight_snow_over_cm", JFloat 2.5);
                               ("highlight_rain_enabled", JBool true);
                               ("highlight_rain_over_mm", JFloat 1)])]))
    /\ error_boxes st' = error_boxes sample_app
    /\ output st' = output sample_app.
Proof.
  apply (@save_new_location_adds sample_externals "Test Peak" "40.0"
           "-105.5" 40 (-105.5) sample_app true 2.5 true 1).
  - reflexivity.
  - reflexivity.
  - discriminate.
  - exact sample_settings_read.
Defined.

Lemma save_new_location_rejects_witness :
  exists message,
    @save_new_location sample_externals "Test Peak" "north" "-105.5"
      sample_app
    = (Ok tt,
       set_error_boxes (error_boxes sample_app ++ [("Error", message)])
                       sample_app).
Proof.
  apply (@save_new_location_rejects sample_externals).
  left. reflexivity.
Defined.

Lemma save_new_location_unsaved_witness :
  @save_new_location sample_externals "Test Peak" "40.0" "-105.5"
    unreadable_app
  = (Err (Exn TclError "expected floating-point number"),
     set_locations
       (dict_set "Test Peak" (coords 40 (-105.5)) (locations unreadable_app))
       unreadable_app).
Proof.
  apply (@save_new_location_unsaved sample_externals "Test Peak" "40.0"
           "-105.5" 40 (-105.5) unreadable_app).
  - reflexivity.
  - reflexivity.
  - discriminate.
  - reflexivity.
Defined.

Lemma apply_and_close_rejects_witness :
  @apply_and_close sample_externals unreadable_app
  = (Ok tt,
     set_error_boxes
       (error_boxes unreadable_app
        ++ [("Error", "Threshold values must be numbers.")])
       unreadable_app).
Proof.
  apply (@apply_and_close_rejects sample_externals unreadable_app).
  reflexivity.
Defined.

Lemma apply_and_close_saves_witness :
  @apply_and_close sample_externals sample_app
  = (Ok tt,
     set_backing_file
       (Some (JsonText
                (JObj [("locations", JObj (locations sample_app));
                       ("settings",
                        JObj [("highlight_snow_enabled", JBool true);
                              ("highlight_snow_over_cm", JFloat 2.5);
                              ("highlight_rain_enabled", JBool true);
                              ("highlight_rain_over_mm", JFloat 1)])])))
       sample_app).
Proof.
  apply (@apply_and_close_saves sample_externals sample_app true 2.5 true 1).
  exact sample_settings_read.
Defined.

Lemma callbacks_keep_selection_valid_witness :
  selection_valid (snd (@show_forecast sample_externals sample_app)) = true
  /\ selection_valid (snd (@apply_and_close sample_externals sample_app))
     = true
  /\ forall name_entry lat_entry lon_entry,
       selection_valid
         (snd (@save_new_location sample_externals name_entry lat_entry
                 lon_entry sample_app)) = true.
Proof.
  apply (@callbacks_keep_selection_valid sample_externals sample_app).
  reflexivity.
Defined.
